(** * tcga_gdc_legacy_mafs.py: a shallow embedding and its properties

    The script lists the projects of the GDC Legacy Archive, keeps the
    ones whose identifier starts with "TCGA-", asks for the open-access
    MAF files of a project, prints one line per file and, when asked to,
    downloads each file below the directory [mafs].

    The embedding follows the source statement by statement.  The script
    talks to three things outside itself, and each of them is a component
    of the model:
    - the archive, a [Server]: an arbitrary function from the requests
      made so far and the current request to a reply;
    - standard output, the list of the lines printed so far;
    - the file system, a finite map from paths to nodes.
    Python values that come out of a JSON document are terms of [json];
    a Python exception is a term of [exn], and every statement that can
    raise returns a [result]. *)

From Stdlib Require Import Strings.Byte Strings.Ascii.
From stdpp Require Import gmap strings list fin_maps.

Set Warnings "-register-all".

(** ** Python values obtained from JSON *)

Inductive json : Type :=
| JNull
| JBool (b : bool)
| JNum (n : Z)
| JStr (s : string)
| JArr (items : list json)
| JObj (members : list (string * json)).

(** The exceptions the script can meet.  None of them is caught anywhere
    in the source, [SystemExit] included. *)
Inductive exn : Type :=
| KeyError (key : string)
| TypeError
| AttributeError
| ValueError
| RequestException
| FileNotFoundError
| FileExistsError
| NotADirectoryError
| IsADirectoryError
| RecursionError
| SystemExit (code : Z).

Inductive result (A : Type) : Type :=
| Ok (a : A)
| Raise (e : exn).
Arguments Ok {A} a.
Arguments Raise {A} e.

(** ** Pure operations on Python values *)

Module Py.

(** A [dict] read back from JSON has one entry per key; the first
    entry of the association list is the entry of the key. *)
Fixpoint assoc (k : string) (kvs : list (string * json)) : option json :=
  match kvs with
  | [] => None
  | (k', v) :: rest => if String.eqb k k' then Some v else assoc k rest
  end.

(** [v[k]] for a string key [k]. *)
Definition subscript (v : json) (k : string) : result json :=
  match v with
  | JObj kvs => match assoc k kvs with
                | Some x => Ok x
                | None => Raise (KeyError k)
                end
  | _ => Raise TypeError
  end.

Fixpoint chars (s : string) : list json :=
  match s with
  | EmptyString => []
  | String c rest => JStr (String c EmptyString) :: chars rest
  end.

(** The elements a [for] loop or a comprehension draws from [v]. *)
Definition iter (v : json) : result (list json) :=
  match v with
  | JArr l => Ok l
  | JObj kvs => Ok (map (fun kv => JStr (fst kv)) kvs)
  | JStr s => Ok (chars s)
  | _ => Raise TypeError
  end.

(** [s.startswith(p)] on strings. *)
Fixpoint startswith (s p : string) : bool :=
  match p, s with
  | EmptyString, _ => true
  | String a p', String b s' => Ascii.eqb a b && startswith s' p'
  | String _ _, EmptyString => false
  end.

(** [v.startswith(p)]: only a string has the method. *)
Definition startswith_method (v : json) (p : string) : result bool :=
  match v with
  | JStr s => Ok (startswith s p)
  | _ => Raise AttributeError
  end.

Fixpoint strings_of (l : list json) : option (list string) :=
  match l with
  | [] => Some []
  | JStr s :: rest => match strings_of rest with
                      | Some ss => Some (s :: ss)
                      | None => None
                      end
  | _ :: _ => None
  end.

(** [sep.join(l)]: every item has to be a string. *)
Definition join (sep : string) (l : list json) : result string :=
  match strings_of l with
  | Some ss => Ok (String.concat sep ss)
  | None => Raise TypeError
  end.

(** [s + v] for a string [s]. *)
Definition add (s : string) (v : json) : result string :=
  match v with
  | JStr t => Ok (s +:+ t)
  | _ => Raise TypeError
  end.

(** [[f(d) for d in l]], stopping at the first exception. *)
Fixpoint comprehension {A B} (f : A -> result B) (l : list A) : result (list B) :=
  match l with
  | [] => Ok []
  | d :: rest =>
      match f d with
      | Raise e => Raise e
      | Ok x => match comprehension f rest with
                | Raise e => Raise e
                | Ok xs => Ok (x :: xs)
                end
      end
  end.

(** [[d for d in l if c(d)]]. *)
Fixpoint comprehension_if {A} (c : A -> result bool) (l : list A) : result (list A) :=
  match l with
  | [] => Ok []
  | d :: rest =>
      match c d with
      | Raise e => Raise e
      | Ok b => match comprehension_if c rest with
                | Raise e => Raise e
                | Ok xs => Ok (if b then d :: xs else xs)
                end
      end
  end.

End Py.

(** ** Paths *)

Module Path.

Definition slash : ascii := "/"%char.
Definition is_slash (c : ascii) : bool := Ascii.eqb c slash.

Fixpoint drop_while (f : ascii -> bool) (l : list ascii) : list ascii :=
  match l with
  | [] => []
  | c :: rest => if f c then drop_while f rest else l
  end.

(** [os.path.dirname]: everything up to the last slash, without its
    trailing slashes unless it consists of slashes only. *)
Definition dirname (p : string) : string :=
  let rhead := drop_while (fun c => negb (is_slash c)) (rev (String.list_ascii_of_string p)) in
  if forallb is_slash rhead
  then String.string_of_list_ascii (rev rhead)
  else String.string_of_list_ascii (rev (drop_while is_slash rhead)).

(** [os.path.basename]: what follows the last slash. *)
Fixpoint take_until_slash (l : list ascii) : list ascii :=
  match l with
  | [] => []
  | c :: rest => if is_slash c then [] else c :: take_until_slash rest
  end.

Definition basename (p : string) : string :=
  String.string_of_list_ascii
    (rev (take_until_slash (rev (String.list_ascii_of_string p)))).

(** [os.path.split]. *)
Definition split (p : string) : string * string := (dirname p, basename p).

(** The components of a path: what stands between its slashes. *)
Fixpoint split_slash (l : list ascii) : list (list ascii) :=
  match l with
  | [] => [[]]
  | c :: rest =>
      if is_slash c then [] :: split_slash rest
      else match split_slash rest with
           | [] => [[c]]
           | x :: xs => (c :: x) :: xs
           end
  end.

Definition components (p : string) : list string :=
  map String.string_of_list_ascii (split_slash (String.list_ascii_of_string p)).

(** A component that names an entry of its directory and nothing else:
    not empty, neither [.] nor [..], without a NUL character and at most
    255 characters long. *)
Definition ok_component (c : string) : bool :=
  negb (String.eqb c "") && negb (String.eqb c ".") && negb (String.eqb c "..")
  && forallb (fun a => negb (Ascii.eqb a Ascii.zero)) (String.list_ascii_of_string c)
  && Nat.leb (String.length c) 255.

(** A plain path: a relative path of at most 16 such components with
    one slash between two of them.  Two plain paths that differ name
    different files, and the file system calls below are exact on plain
    paths; a path with an empty component (a leading, trailing or doubled
    slash), with [.] or [..], with a NUL character or of excessive length
    or depth is not plain. *)
Definition plain (p : string) : bool :=
  forallb ok_component (components p) && Nat.leb (length (components p)) 16.

End Path.

(** ** The world outside the script *)

Abbreviation bytes := (list byte).

Inductive payload_body : Type :=
| Form (fields : list (string * string))
| Json (doc : json).

Inductive request : Type :=
| POST (url : string) (body : payload_body)
| GET (url : string).

(** What a response offers to the script: [.json()], which fails when
    the body is not a JSON document, and [.iter_content()], the chunks of
    the body in order; a stream that is not [resp_intact] breaks after
    its last chunk. *)
Record response : Type := {
  resp_json : option json;
  resp_chunks : list bytes;
  resp_intact : bool
}.

Inductive reply : Type :=
| Refused
| Answer (r : response).

Definition Server : Type := list request -> request -> reply.

Inductive node : Type :=
| Dir
| File (content : bytes).

(** Paths are compared as they are written: the file system maps a
    path to what is stored there, and it is exact for the paths that are
    [Path.plain] on a file system that tells upper case from lower case.
    Symbolic links, permissions and the space left on the device are not
    part of the model. *)
Record World : Type := {
  net_log : list request;
  stdout : list string;
  fs : gmap string node
}.

Definition M (A : Type) : Type := World -> result A * World.

Definition ret {A} (a : A) : M A := fun w => (Ok a, w).
Definition raise {A} (e : exn) : M A := fun w => (Raise e, w).
Definition bind {A B} (m : M A) (k : A -> M B) : M B :=
  fun w => match m w with
           | (Ok a, w') => k a w'
           | (Raise e, w') => (Raise e, w')
           end.
Definition lift {A} (r : result A) : M A := fun w => (r, w).

Notation "'let*' x ':=' m 'in' k" := (bind m (fun x => k))
  (at level 10, x name, m at level 100, k at level 200).
Notation "m ';;' k" := (bind m (fun _ => k))
  (at level 100, k at level 200, right associativity).

(** [for x in l: body x]. *)
Fixpoint for_each {A} (l : list A) (body : A -> M unit) : M unit :=
  match l with
  | [] => ret tt
  | x :: rest => body x ;; for_each rest body
  end.

Definition nonempty {A} (l : list A) : bool :=
  match l with [] => false | _ :: _ => true end.

Definition nonempty_str (s : string) : bool := negb (String.eqb s "").

(** ** The file system calls of the script

    The calls look a path up as it is written.  This is what the
    operating system does for the paths that are [Path.plain] and for the
    empty path; the properties below that depend on more than one path
    are stated for plain paths. *)

Module Os.

Abbreviation tree := (gmap string node).

(** [os.path.exists]. *)
Definition exists_in (m : tree) (p : string) : bool :=
  if String.eqb p "" then false
  else match m !! p with Some _ => true | None => false end.

(** [os.mkdir]: the parent has to be a directory ([""] stands for
    the working directory) and the path has to be free. *)
Definition mkdir_in (m : tree) (p : string) : result tree :=
  if String.eqb p "" then Raise FileNotFoundError
  else match m !! p with
       | Some _ => Raise FileExistsError
       | None =>
           let parent := Path.dirname p in
           if String.eqb parent "" then Ok (<[p := Dir]> m)
           else match m !! parent with
                | Some Dir => Ok (<[p := Dir]> m)
                | Some (File _) => Raise NotADirectoryError
                | None => Raise FileNotFoundError
                end
       end.

(** [os.makedirs], after the standard library's definition; its
    recursion is on the head of the path, which is shorter than the
    path, so that a [fuel] above the length of the path is never used
    up. *)
Fixpoint makedirs_in (fuel : nat) (m : tree) (name : string) : result tree :=
  match fuel with
  | O => Raise RecursionError
  | S n =>
      let (head, tail) := Path.split name in
      let (head, tail) := if nonempty_str tail then (head, tail) else Path.split head in
      if nonempty_str head && nonempty_str tail && negb (exists_in m head)
      then
        match makedirs_in n m head with
        | Ok m' => if String.eqb tail "." then Ok m' else mkdir_in m' name
        | Raise FileExistsError =>
            if String.eqb tail "." then Ok m else mkdir_in m name
        | Raise e => Raise e
        end
      else mkdir_in m name
  end.

(** [open(p, 'wb')]: an existing regular file is emptied, a missing
    one is created in its parent directory. *)
Definition open_wb_in (m : tree) (p : string) : result tree :=
  if String.eqb p "" then Raise FileNotFoundError
  else match m !! p with
       | Some Dir => Raise IsADirectoryError
       | Some (File _) => Ok (<[p := File []]> m)
       | None =>
           let parent := Path.dirname p in
           if String.eqb parent "" then Ok (<[p := File []]> m)
           else match m !! parent with
                | Some Dir => Ok (<[p := File []]> m)
                | Some (File _) => Raise NotADirectoryError
                | None => Raise FileNotFoundError
                end
       end.

(** [fh.write(chunk)] on the file opened at [p]. *)
Definition write_in (m : tree) (p : string) (chunk : bytes) : tree :=
  match m !! p with
  | Some (File old) => <[p := File (old ++ chunk)]> m
  | _ => m
  end.

Definition with_fs (w : World) (m : tree) : World :=
  {| net_log := net_log w; stdout := stdout w; fs := m |}.

Definition update (f : tree -> result tree) : M unit :=
  fun w => match f (fs w) with
           | Ok m => (Ok tt, with_fs w m)
           | Raise e => (Raise e, w)
           end.

Definition path_exists (p : string) : M bool :=
  fun w => (Ok (exists_in (fs w) p), w).

Definition makedirs (p : string) : M unit :=
  update (fun m => makedirs_in (S (String.length p)) m p).

(** The handle of an open file is its path. *)
Definition open_wb (p : string) : M string :=
  update (fun m => open_wb_in m p) ;; ret p.

Definition write (fh : string) (chunk : bytes) : M unit :=
  update (fun m => Ok (write_in m fh chunk)).

End Os.

(** ** The script *)

Section Script.

Variable server : Server.

(** A request is recorded, then answered by the server, which sees the
    requests made before it. *)
Definition send (req : request) : M response :=
  fun w =>
    let w' := {| net_log := net_log w ++ [req]; stdout := stdout w; fs := fs w |} in
    match server (net_log w) req with
    | Refused => (Raise RequestException, w')
    | Answer r => (Ok r, w')
    end.

Definition requests_post (url : string) (body : payload_body) : M response :=
  send (POST url body).

(** [requests.get(url, stream=True)]. *)
Definition requests_get (url : string) : M response := send (GET url).

(** [response.json()]. *)
Definition response_json (r : response) : M json :=
  match resp_json r with
  | Some j => ret j
  | None => raise ValueError
  end.

(** [print(s)] writes [s] and a newline: one more line. *)
Definition print (s : string) : M unit :=
  fun w => (Ok tt, {| net_log := net_log w; stdout := stdout w ++ [s]; fs := fs w |}).

Definition exit (code : Z) : M unit := raise (SystemExit code).

Definition proj_ep : string := "https://gdc-api.nci.nih.gov/legacy/projects/".
Definition file_ep : string := "https://gdc-api.nci.nih.gov/legacy/files/".
Definition data_ep : string := "https://gdc-api.nci.nih.gov/legacy/data/".

(** Given a GDC UUID and a local file path, download and save a file. *)
Definition download_file (file_id : json) (filepath : string) : M string :=
  let* url := lift (Py.add data_ep file_id) in
  let* response := requests_get url in
  let directory := Path.dirname filepath in
  let* present := Os.path_exists directory in
  (if negb present then Os.makedirs directory else ret tt) ;;
  let* fh := Os.open_wb filepath in
  for_each (resp_chunks response)
    (fun chunk => if nonempty chunk then Os.write fh chunk else ret tt) ;;
  (if resp_intact response then ret tt else raise RequestException) ;;
  ret filepath.

(** The request of line 15. *)
Definition proj_request : request :=
  POST proj_ep (Form [("size", "1000"); ("fields", "project_id")]).

(** Lines 15 to 17: the identifiers of the projects, limited to the
    ones that start with "TCGA-". *)
Definition fetch_proj_ids : M (list json) :=
  let* response := requests_post proj_ep (Form [("size", "1000"); ("fields", "project_id")]) in
  let* doc := response_json response in
  let* data := lift (Py.subscript doc "data") in
  let* hits := lift (Py.subscript data "hits") in
  let* ds := lift (Py.iter hits) in
  let* proj_ids := lift (Py.comprehension (fun d => Py.subscript d "project_id") ds) in
  lift (Py.comprehension_if (fun d => Py.startswith_method d "TCGA-") proj_ids).

(** Lines 21 to 51. *)
Definition payload (proj_id : json) : json :=
  JObj [
    ("filters", JObj [
      ("op", JStr "and");
      ("content", JArr [
        JObj [
          ("op", JStr "=");
          ("content", JObj [
            ("field", JStr "cases.project.project_id");
            ("value", proj_id)
          ])
        ];
        JObj [
          ("op", JStr "=");
          ("content", JObj [
            ("field", JStr "files.data_format");
            ("value", JStr "MAF")
          ])
        ];
        JObj [
          ("op", JStr "=");
          ("content", JObj [
            ("field", JStr "access");
            ("value", JStr "open")
          ])
        ]
      ])
    ]);
    ("format", JStr "json");
    ("fields", JStr "file_id,file_name,file_size,md5sum");
    ("size", JStr "1000")
  ].

(** Lines 55 to 58, the body of the loop over the files of a project. *)
Definition report_maf (download : bool) (proj_id maf : json) : M unit :=
  let* file_id := lift (Py.subscript maf "file_id") in
  let* file_name := lift (Py.subscript maf "file_name") in
  let* line := lift (Py.join (String (ascii_of_nat 9) "") [proj_id; file_id; file_name]) in
  print line ;;
  if download then
    let* file_id := lift (Py.subscript maf "file_id") in
    let* file_name := lift (Py.subscript maf "file_name") in
    let* filepath := lift (Py.join "/" [JStr "mafs"; proj_id; file_name]) in
    download_file file_id filepath ;; ret tt
  else ret tt.

(** Lines 21 to 58, the body of the loop over the projects without its
    last statement. *)
Definition enumerate_mafs (download : bool) (proj_id : json) : M unit :=
  let* response := requests_post file_ep (Json (payload proj_id)) in
  let* doc := response_json response in
  let* data := lift (Py.subscript doc "data") in
  let* hits := lift (Py.subscript data "hits") in
  let* mafs := lift (Py.iter hits) in
  for_each mafs (report_maf download proj_id).

(** [main], for the parsed value of the [--download] flag. *)
Definition main (download : bool) : M unit :=
  let* proj_ids := fetch_proj_ids in
  for_each proj_ids
    (fun proj_id => enumerate_mafs download proj_id ;; exit 0).

End Script.

(** ** Vocabulary of the statements *)

(** A computation respects a relation between the world before it and
    the world after it. *)
Definition respects (R : relation World) {A} (m : M A) : Prop :=
  forall w, R w (snd (m w)).

(** The property [startswith] decides. *)
Definition has_prefix (p s : string) : Prop := exists rest, s = p +:+ rest.

Definition logged (w : World) (new : list request) : World :=
  {| net_log := net_log w ++ new; stdout := stdout w; fs := fs w |}.

Definition printed (w : World) (lines : list string) : World :=
  {| net_log := net_log w; stdout := stdout w ++ lines; fs := fs w |}.

(** The frame of a step that only touches the file system. *)
Definition same_io (w w' : World) : Prop :=
  net_log w' = net_log w /\ stdout w' = stdout w.

(** The records a reply to a search holds, as both stages read them:
    [response.json()['data']['hits']], ready to be iterated over. *)
Definition reply_hits (rp : reply) : result (list json) :=
  match rp with
  | Refused => Raise RequestException
  | Answer r =>
      match resp_json r with
      | None => Raise ValueError
      | Some doc =>
          match Py.subscript doc "data" with
          | Raise e => Raise e
          | Ok data =>
              match Py.subscript data "hits" with
              | Raise e => Raise e
              | Ok hits => Py.iter hits
              end
          end
      end
  end.

Definition file_request (proj_id : json) : request :=
  POST file_ep (Json (payload proj_id)).

Definition is_get (req : request) : Prop :=
  match req with GET _ => True | POST _ _ => False end.

Definition tab : string := String (ascii_of_nat 9) "".

(** The line [report_maf] prints for a record, or the exception it
    raises before it prints. *)
Definition maf_line (proj_id maf : json) : result string :=
  match Py.subscript maf "file_id" with
  | Raise e => Raise e
  | Ok file_id =>
      match Py.subscript maf "file_name" with
      | Raise e => Raise e
      | Ok file_name => Py.join tab [proj_id; file_id; file_name]
      end
  end.

(** A record of a file search as the script reads it: its identifier
    and its name. *)
Definition is_record (maf : json) (rec : string * string) : Prop :=
  Py.subscript maf "file_id" = Ok (JStr rec.1) /\
  Py.subscript maf "file_name" = Ok (JStr rec.2).

(** The line of a record: project, file identifier and file name with
    a tab between them. *)
Definition output_line (proj_id : string) (rec : string * string) : string :=
  proj_id +:+ tab +:+ rec.1 +:+ tab +:+ rec.2.

(** An equality clause of a filter: [{'op':'=', 'content':{'field':..,
    'value':..}}]. *)
Definition equality_clause (field : string) (value clause : json) : Prop :=
  Py.subscript clause "op" = Ok (JStr "=") /\
  exists content,
    Py.subscript clause "content" = Ok content /\
    Py.subscript content "field" = Ok (JStr field) /\
    Py.subscript content "value" = Ok value.

(** The filter of a file search: the conjunction of exactly three
    equalities, on the project, on the data format and on the access. *)
Definition and_of_three_equalities (proj_id doc : json) : Prop :=
  exists filters c1 c2 c3,
    Py.subscript doc "filters" = Ok filters /\
    Py.subscript filters "op" = Ok (JStr "and") /\
    Py.subscript filters "content" = Ok (JArr [c1; c2; c3]) /\
    equality_clause "cases.project.project_id" proj_id c1 /\
    equality_clause "files.data_format" (JStr "MAF") c2 /\
    equality_clause "access" (JStr "open") c3.

(** A value without the field [k]: a [dict] without the key, or no
    [dict] at all. *)
Definition lacks (k : string) (v : json) : Prop :=
  match v with
  | JObj members => Py.assoc k members = None
  | _ => True
  end.

(** A search that fails: the request fails, the body is no JSON
    document, or the document has no ['data'] or no ['hits'] in it. *)
Inductive failed_search : reply -> Prop :=
| search_refused : failed_search Refused
| search_not_json r : resp_json r = None -> failed_search (Answer r)
| search_no_data r doc :
    resp_json r = Some doc -> lacks "data" doc -> failed_search (Answer r)
| search_no_hits r doc data :
    resp_json r = Some doc -> Py.subscript doc "data" = Ok data ->
    lacks "hits" data -> failed_search (Answer r).

(** The project search fails in one more way: a record has no
    ['project_id']. *)
Definition failed_project_list (rp : reply) : Prop :=
  failed_search rp \/
  exists ds, reply_hits rp = Ok ds /\ Exists (lacks "project_id") ds.

(** An exception that is an error, not the request to exit. *)
Definition is_error (e : exn) : Prop :=
  match e with SystemExit _ => False | _ => True end.

(** The ['size'] a search asks for. *)
Fixpoint form_field (k : string) (fields : list (string * string)) : option string :=
  match fields with
  | [] => None
  | (k', v) :: rest => if String.eqb k k' then Some v else form_field k rest
  end.

Definition request_size (req : request) : option string :=
  match req with
  | POST _ (Form fields) => form_field "size" fields
  | POST _ (Json doc) =>
      match Py.subscript doc "size" with
      | Ok (JStr s) => Some s
      | _ => None
      end
  | GET _ => None
  end.

(** An archive that never returns more than the thousand records a
    search asks for. *)
Definition honours_cap (server : Server) : Prop :=
  forall log req ds,
    request_size req = Some "1000" ->
    reply_hits (server log req) = Ok ds ->
    length ds <= 1000.

(** The exception a record without ['file_id'] or ['file_name'] ends the
    listing with: [maf['file_id']] is read first. *)
Definition record_error (bad : json) : exn :=
  match bad with
  | JObj members =>
      match Py.assoc "file_id" members with
      | None => KeyError "file_id"
      | Some _ => KeyError "file_name"
      end
  | _ => TypeError
  end.

(** A computation that raises errors only: it never asks to exit. *)
Definition raises_errors {A} (m : M A) : Prop :=
  forall w e, fst (m w) = Raise e -> is_error e.

(** The request that downloads the file of a record. *)
Definition download_request (rec : string * string) : request :=
  GET (data_ep +:+ rec.1).

(** The file systems of two worlds agree at a path. *)
Definition same_at (q : string) (w w' : World) : Prop := fs w' !! q = fs w !! q.

(** ** A sample archive

    Three projects, two of them of TCGA, each of these with one MAF. *)

Module Sample.

Definition hits_doc (hits : list json) : json :=
  JObj [("data", JObj [("hits", JArr hits)])].

Definition json_reply (doc : json) : reply :=
  Answer {| resp_json := Some doc; resp_chunks := []; resp_intact := true |}.

Definition project (id : string) : json := JObj [("project_id", JStr id)].

Definition maf (file_id file_name : string) : json :=
  JObj [("file_name", JStr file_name); ("file_id", JStr file_id);
        ("md5sum", JStr "d41d8cd98f00b204e9800998ecf8427e"); ("file_size", JNum 3)].

(** The project a file search asks for. *)
Definition asked_project (doc : json) : string :=
  match Py.subscript doc "filters" with
  | Ok filters =>
      match Py.subscript filters "content" with
      | Ok (JArr (clause :: _)) =>
          match Py.subscript clause "content" with
          | Ok content =>
              match Py.subscript content "value" with
              | Ok (JStr s) => s
              | _ => ""
              end
          | _ => ""
          end
      | _ => ""
      end
  | _ => ""
  end.

Definition body : list bytes := [[x41; x42]; []; [x43]].

Definition archive : Server :=
  fun _ req =>
    match req with
    | POST _ (Form _) =>
        json_reply (hits_doc [project "TCGA-ABC"; project "OTHER-XYZ"; project "TCGA-DEF"])
    | POST _ (Json doc) =>
        if String.eqb (asked_project doc) "TCGA-ABC"
        then json_reply (hits_doc [maf "f1" "x.maf"])
        else if String.eqb (asked_project doc) "TCGA-DEF"
        then json_reply (hits_doc [maf "f2" "y.maf"])
        else json_reply (hits_doc [])
    | GET _ => Answer {| resp_json := None; resp_chunks := body; resp_intact := true |}
    end.

Definition empty_world : World := {| net_log := []; stdout := []; fs := ∅ |}.

(** A world in which an earlier download has left a file behind. *)
Definition stale_world : World :=
  {| net_log := [];
     stdout := [];
     fs := <["mafs/TCGA-ABC/x.maf" := File [x6f; x6c; x64; x20; x64; x61; x74; x61]]>
             (<["mafs/TCGA-ABC" := Dir]> (<["mafs" := Dir]> ∅)) |}.

(** An archive out of reach. *)
Definition unreachable : Server := fun _ _ => Refused.

(** An archive whose file search answers with an error document. *)
Definition broken_archive : Server :=
  fun _ req =>
    match req with
    | POST _ (Form _) => json_reply (hits_doc [project "TCGA-ABC"])
    | POST _ (Json _) => json_reply (JObj [("message", JStr "internal server error")])
    | GET _ => Refused
    end.

(** An archive that returns 1001 records for a project. *)
Definition big_archive : Server :=
  fun _ req =>
    match req with
    | POST _ (Form _) => json_reply (hits_doc [project "TCGA-ABC"])
    | POST _ (Json _) => json_reply (hits_doc (replicate 1001 (maf "f1" "x.maf")))
    | GET _ => Refused
    end.

(** A world in which the directory of the project is a regular file. *)
Definition blocked_world : World :=
  {| net_log := [];
     stdout := [];
     fs := <["mafs/TCGA-ABC" := File []]> (<["mafs" := Dir]> ∅) |}.

(** A world in which the destination of the download is a directory. *)
Definition occupied_world : World :=
  {| net_log := [];
     stdout := [];
     fs := <["mafs/TCGA-ABC/x.maf" := Dir]>
             (<["mafs/TCGA-ABC" := Dir]> (<["mafs" := Dir]> ∅)) |}.

(** An archive whose file changes between two downloads. *)
Definition changing_archive : Server :=
  fun log req =>
    match req with
    | GET _ =>
        Answer {| resp_json := None;
                  resp_chunks := if nonempty log then [[x44]; [x45; x46]] else body;
                  resp_intact := true |}
    | POST _ _ => Refused
    end.

(** An archive with a project whose identifier is a number. *)
Definition odd_archive : Server :=
  fun _ req =>
    match req with
    | POST _ (Form _) =>
        json_reply (hits_doc [project "TCGA-ABC"; JObj [("project_id", JNum 7)]])
    | _ => Refused
    end.

(** An archive whose second record has no name. *)
Definition ragged_archive : Server :=
  fun _ req =>
    match req with
    | POST _ (Form _) => json_reply (hits_doc [project "TCGA-ABC"])
    | POST _ (Json _) =>
        json_reply (hits_doc [maf "f1" "x.maf"; JObj [("file_id", JStr "f2")];
                              maf "f3" "z.maf"])
    | GET _ => Refused
    end.

End Sample.

(** * Properties *)

(** ** Strings and lists *)

Lemma startswith_spec (s p : string) :
  Py.startswith s p = true <-> has_prefix p s.
Proof.
  revert s; induction p as [|a p IH]; intros [|b s]; simpl.
  - split; [intros _; exists ""; reflexivity | reflexivity].
  - split; [intros _; exists (String b s); reflexivity | reflexivity].
  - split; [discriminate | intros [rest H]; discriminate].
  - rewrite andb_true_iff, Ascii.eqb_eq, IH. split.
    + intros [-> [rest ->]]. exists rest. reflexivity.
    + intros [rest H]. injection H as -> ->. split; [reflexivity | exists rest; reflexivity].
Qed.

Lemma mjoin_filter_nonempty {A} (cs : list (list A)) :
  mjoin (List.filter nonempty cs) = mjoin cs.
Proof.
  induction cs as [|c cs IH]; simpl; [reflexivity|].
  destruct c as [|x c]; simpl; [exact IH | now rewrite IH].
Qed.

(** ** Comprehensions *)

Lemma comprehension_Forall2 {A B} (f : A -> result B) (l : list A) (ys : list B) :
  Forall2 (fun d y => f d = Ok y) l ys -> Py.comprehension f l = Ok ys.
Proof.
  induction 1 as [|d y l ys Hd _ IH]; simpl; [reflexivity|].
  now rewrite Hd, IH.
Qed.

Lemma comprehension_if_strings (p : string) (ids : list string) :
  Py.comprehension_if (fun d => Py.startswith_method d p) (JStr <$> ids)
  = Ok (JStr <$> List.filter (fun id => Py.startswith id p) ids).
Proof.
  induction ids as [|id ids IH]; [reflexivity|].
  rewrite fmap_cons. cbn [Py.comprehension_if Py.startswith_method List.filter].
  rewrite IH. destruct (Py.startswith id p); reflexivity.
Qed.

(** ** Running the monad *)

Lemma bind_run {A B} (m : M A) (k : A -> M B) (w : World) :
  bind m k w = match m w with
               | (Ok a, w') => k a w'
               | (Raise e, w') => (Raise e, w')
               end.
Proof. reflexivity. Qed.

Lemma bind_lift {A B} (r : result A) (k : A -> M B) (w : World) :
  bind (lift r) k w = match r with Ok a => k a w | Raise e => (Raise e, w) end.
Proof. unfold bind, lift. destruct r; reflexivity. Qed.

Lemma logged_logged (w : World) (l1 l2 : list request) :
  logged (logged w l1) l2 = logged w (l1 ++ l2).
Proof. unfold logged; simpl. now rewrite app_assoc. Qed.

Section Facts.

Variable server : Server.

Lemma send_run (req : request) (w : World) :
  send server req w =
    (match server (net_log w) req with
     | Refused => Raise RequestException
     | Answer r => Ok r
     end, logged w [req]).
Proof. unfold send, logged. destruct (server (net_log w) req); reflexivity. Qed.

End Facts.

(** ** Frames: what a computation leaves alone

    A relation between the world before and the world after that is a
    preorder is kept by [bind], by the loops and by the pure steps as
    soon as the effectful steps keep it. *)

Section Frame.

Context (R : relation World) `{!PreOrder R}.

Lemma respects_ret {A} (a : A) : respects R (ret a).
Proof. intros w. reflexivity. Qed.

Lemma respects_raise {A} (e : exn) : respects R (@raise A e).
Proof. intros w. reflexivity. Qed.

Lemma respects_lift {A} (r : result A) : respects R (lift r).
Proof. intros w. reflexivity. Qed.

Lemma respects_bind {A B} (m : M A) (k : A -> M B) :
  respects R m -> (forall a, respects R (k a)) -> respects R (bind m k).
Proof.
  intros Hm Hk w. rewrite bind_run. specialize (Hm w).
  destruct (m w) as [[a|e] w1]; simpl in *; [|exact Hm].
  transitivity w1; [exact Hm | apply Hk].
Qed.

Lemma respects_for_each {A} (l : list A) (body : A -> M unit) :
  (forall x, respects R (body x)) -> respects R (for_each l body).
Proof.
  intros Hb. induction l as [|x l IH]; simpl.
  - apply respects_ret.
  - apply respects_bind; [apply Hb | intros _; exact IH].
Qed.

End Frame.

#[local] Instance same_io_pre : PreOrder same_io.
Proof.
  split.
  - intros w. split; reflexivity.
  - intros a b c [H1 H2] [H3 H4]. split; congruence.
Qed.

Lemma update_same_io (f : Os.tree -> result Os.tree) : respects same_io (Os.update f).
Proof.
  intros w. unfold Os.update. destruct (f (fs w)); split; reflexivity.
Qed.

Lemma path_exists_same_io (p : string) : respects same_io (Os.path_exists p).
Proof. intros w. split; reflexivity. Qed.

Create HintDb frame.
#[local] Hint Resolve update_same_io path_exists_same_io : frame.

(** Walks through a computation and leaves the effectful steps to the
    hints of [frame]. *)
Ltac frame :=
  lazymatch goal with
  | |- respects _ (bind _ _) =>
      apply respects_bind; [typeclasses eauto | frame | intros ?; frame]
  | |- respects _ (for_each _ _) =>
      apply respects_for_each; [typeclasses eauto | intros ?; frame]
  | |- respects _ (if ?b then _ else _) => destruct b; frame
  | |- respects _ (ret _) => apply respects_ret; typeclasses eauto
  | |- respects _ (raise _) => apply respects_raise; typeclasses eauto
  | |- respects _ (lift _) => apply respects_lift; typeclasses eauto
  | |- _ => solve [auto with frame]
  end.

Section Effects.

Variable server : Server.

(** [download_file] prints nothing and makes at most one request, a
    [GET]. *)
Lemma download_file_effect (file_id : json) (filepath : string) (w : World) :
  let w' := snd (download_file server file_id filepath w) in
  stdout w' = stdout w /\
  exists gets, net_log w' = net_log w ++ gets /\ Forall is_get gets.
Proof.
  unfold download_file. rewrite bind_lift.
  destruct (Py.add data_ep file_id) as [url|e]; simpl;
    [|split; [reflexivity|]; exists []; now rewrite app_nil_r].
  unfold requests_get. rewrite bind_run, send_run.
  destruct (server (net_log w) (GET url)) as [|r]; simpl.
  { split; [reflexivity|]. exists [GET url]. split; [reflexivity|]. repeat constructor. }
  match goal with |- context [snd (?m (logged w [GET url]))] =>
    assert (H : respects same_io m) end.
  { unfold Os.makedirs, Os.open_wb, Os.write. frame. }
  destruct (H (logged w [GET url])) as [H1 H2]. simpl in H1, H2.
  split; [exact H2|]. exists [GET url]. split; [exact H1|]. repeat constructor.
Qed.

(** One record: either the script raises before it prints and nothing
    has happened, or exactly one line is printed; without [--download]
    that is all. *)
Lemma report_maf_effect (download : bool) (proj_id maf : json) (w : World) :
  let r := fst (report_maf server download proj_id maf w) in
  let w' := snd (report_maf server download proj_id maf w) in
  match maf_line proj_id maf with
  | Raise e => r = Raise e /\ w' = w
  | Ok l =>
      stdout w' = stdout w ++ [l] /\
      (exists gets, net_log w' = net_log w ++ gets /\ Forall is_get gets /\
                    (download = false -> gets = [])) /\
      (download = false -> r = Ok tt /\ fs w' = fs w)
  end.
Proof.
  unfold report_maf, maf_line. rewrite bind_lift.
  destruct (Py.subscript maf "file_id") as [file_id|e]; [|split; reflexivity].
  rewrite bind_lift.
  destruct (Py.subscript maf "file_name") as [file_name|e]; [|split; reflexivity].
  rewrite bind_lift. fold tab.
  destruct (Py.join tab [proj_id; file_id; file_name]) as [l|e]; [|split; reflexivity].
  rewrite bind_run. change (print l w) with (Ok tt, printed w [l]).
  destruct download.
  - rewrite !bind_lift.
    destruct (Py.join "/" [JStr "mafs"; proj_id; file_name]) as [filepath|e]; simpl.
    + rewrite bind_run.
      pose proof (download_file_effect file_id filepath (printed w [l])) as [Hout [gets [Hlog Hgets]]].
      destruct (download_file server file_id filepath (printed w [l])) as [[x|e] w1];
        simpl in *; (split; [exact Hout|]); (split; [|discriminate]);
        exists gets; (split; [exact Hlog|]); (split; [exact Hgets|discriminate]).
    + split; [reflexivity|]. split; [|discriminate].
      exists []. rewrite app_nil_r. repeat split; constructor.
  - simpl. split; [reflexivity|]. split; [|intros _; split; reflexivity].
    exists []. rewrite app_nil_r. repeat split; constructor.
Qed.

(** The loop over the records of one project prints the lines of the
    records it gets through, in their order, and nothing else. *)
Lemma report_loop_effect (download : bool) (proj_id : json) (mafs : list json) (w : World) :
  let r := fst (for_each mafs (report_maf server download proj_id) w) in
  let w' := snd (for_each mafs (report_maf server download proj_id) w) in
  exists lines gets,
    Forall2 (fun maf l => maf_line proj_id maf = Ok l) (take (length lines) mafs) lines /\
    stdout w' = stdout w ++ lines /\
    net_log w' = net_log w ++ gets /\ Forall is_get gets /\
    (r = Ok tt -> length lines = length mafs) /\
    (download = false ->
     gets = [] /\ fs w' = fs w /\
     (Forall (fun maf => exists l, maf_line proj_id maf = Ok l) mafs -> r = Ok tt)).
Proof.
  revert w. induction mafs as [|maf mafs IH]; intros w; cbn [for_each].
  - exists [], []. simpl. rewrite !app_nil_r. repeat split; constructor.
  - rewrite bind_run.
    pose proof (report_maf_effect download proj_id maf w) as H. cbv zeta in H.
    destruct (report_maf server download proj_id maf w) as [[[]|e] w1];
      destruct (maf_line proj_id maf) as [l|e'] eqn:El; simpl in H.
    + destruct H as (Hout & (gets0 & Hlog & Hgets & Hnone) & Hoff).
      destruct (IH w1) as (lines & gets & HF & Hout' & Hlog' & Hgets' & Hall & Hoff').
      exists (l :: lines), (gets0 ++ gets). cbn [length take].
      split; [constructor; assumption|].
      split; [rewrite Hout', Hout, <- app_assoc; reflexivity|].
      split; [rewrite Hlog', Hlog, <- app_assoc; reflexivity|].
      split; [apply Forall_app; split; assumption|].
      split; [intros Hr; f_equal; apply Hall, Hr|].
      intros Hd. destruct (Hoff' Hd) as (-> & Hfs & Hok).
      destruct (Hoff Hd) as [_ Hfs0]. rewrite (Hnone Hd).
      split; [reflexivity|]. split; [congruence|].
      intros HA. apply Hok. inversion HA; assumption.
    + destruct H as [H _]. discriminate.
    + destruct H as (Hout & (gets0 & Hlog & Hgets & Hnone) & Hoff).
      exists [l], gets0. cbn [length take].
      split; [repeat constructor; assumption|].
      split; [exact Hout|]. split; [exact Hlog|]. split; [exact Hgets|].
      split; [discriminate|].
      intros Hd. destruct (Hoff Hd) as [Hr _]. discriminate.
    + destruct H as [_ ->].
      exists [], []. cbn [length take]. rewrite !app_nil_r.
      split; [constructor|]. split; [reflexivity|]. split; [reflexivity|].
      split; [constructor|]. split; [discriminate|].
      intros _. split; [reflexivity|]. split; [reflexivity|].
      intros HA. inversion HA as [|? ? [l Hl] _]. congruence.
Qed.

Lemma fetch_proj_ids_run (w : World) :
  fetch_proj_ids server w =
    (match reply_hits (server (net_log w) proj_request) with
     | Raise e => Raise e
     | Ok ds =>
         match Py.comprehension (fun d => Py.subscript d "project_id") ds with
         | Raise e => Raise e
         | Ok ids => Py.comprehension_if (fun d => Py.startswith_method d "TCGA-") ids
         end
     end, logged w [proj_request]).
Proof.
  unfold fetch_proj_ids, requests_post, reply_hits. rewrite bind_run, send_run.
  fold proj_request.
  destruct (server (net_log w) proj_request) as [|r]; [reflexivity|].
  unfold response_json. rewrite bind_run.
  destruct (resp_json r) as [doc|]; [|reflexivity].
  unfold ret. rewrite bind_lift.
  destruct (Py.subscript doc "data") as [data|]; [|reflexivity].
  rewrite bind_lift.
  destruct (Py.subscript data "hits") as [hits|]; [|reflexivity].
  rewrite bind_lift.
  destruct (Py.iter hits) as [ds|]; [|reflexivity].
  rewrite bind_lift.
  destruct (Py.comprehension _ ds); reflexivity.
Qed.

Lemma enumerate_mafs_run (download : bool) (proj_id : json) (w : World) :
  enumerate_mafs server download proj_id w =
    match reply_hits (server (net_log w) (file_request proj_id)) with
    | Raise e => (Raise e, logged w [file_request proj_id])
    | Ok mafs =>
        for_each mafs (report_maf server download proj_id)
          (logged w [file_request proj_id])
    end.
Proof.
  unfold enumerate_mafs, requests_post, reply_hits. rewrite bind_run, send_run.
  fold (file_request proj_id).
  destruct (server (net_log w) (file_request proj_id)) as [|r]; [reflexivity|].
  unfold response_json. rewrite bind_run.
  destruct (resp_json r) as [doc|]; [|reflexivity].
  unfold ret. rewrite bind_lift.
  destruct (Py.subscript doc "data") as [data|]; [|reflexivity].
  rewrite bind_lift.
  destruct (Py.subscript data "hits") as [hits|]; [|reflexivity].
  rewrite bind_lift.
  destruct (Py.iter hits) as [mafs|]; reflexivity.
Qed.

(** The loop over the projects never reaches its second iteration:
    its body ends with [exit( 0 )]. *)
Lemma main_run (download : bool) (w : World) :
  main server download w =
    match fetch_proj_ids server w with
    | (Raise e, w1) => (Raise e, w1)
    | (Ok [], w1) => (Ok tt, w1)
    | (Ok (proj_id :: _), w1) =>
        match enumerate_mafs server download proj_id w1 with
        | (Ok _, w2) => (Raise (SystemExit 0), w2)
        | (Raise e, w2) => (Raise e, w2)
        end
    end.
Proof.
  unfold main. rewrite bind_run.
  destruct (fetch_proj_ids server w) as [[[|proj_id rest]|e] w1]; try reflexivity.
  cbn [for_each]. rewrite !bind_run.
  destruct (enumerate_mafs server download proj_id w1) as [[[]|e] w2]; reflexivity.
Qed.

(** The whole run, case by case. *)
Lemma main_effect (download : bool) (w : World) :
  let w' := snd (main server download w) in
  match fst (fetch_proj_ids server w) with
  | Raise e => main server download w = (Raise e, logged w [proj_request])
  | Ok [] => main server download w = (Ok tt, logged w [proj_request])
  | Ok (proj_id :: _) =>
      match reply_hits (server (net_log w ++ [proj_request]) (file_request proj_id)) with
      | Raise e =>
          main server download w
          = (Raise e, logged w [proj_request; file_request proj_id])
      | Ok mafs =>
          exists lines gets,
            Forall2 (fun maf l => maf_line proj_id maf = Ok l)
              (take (length lines) mafs) lines /\
            stdout w' = stdout w ++ lines /\
            net_log w' = net_log w ++ proj_request :: file_request proj_id :: gets /\
            Forall is_get gets /\
            (download = false -> gets = [] /\ fs w' = fs w)
      end
  end.
Proof.
  cbv zeta. rewrite main_run, fetch_proj_ids_run. cbn [fst].
  match goal with |- context [match ?x with Ok _ => _ | Raise _ => _ end] =>
    destruct x as [[|proj_id rest]|e] end; try reflexivity.
  rewrite enumerate_mafs_run. cbn [net_log logged].
  destruct (reply_hits _) as [mafs|e]; [|now rewrite logged_logged].
  destruct (report_loop_effect download proj_id mafs
              (logged (logged w [proj_request]) [file_request proj_id]))
    as (lines & gets & HF & Hout & Hlog & Hgets & _ & Hoff).
  exists lines, gets.
  destruct (for_each mafs _ _) as [[[]|e] w2]; cbn [fst snd] in *;
    (split; [exact HF|]); (split; [exact Hout|]);
    (split; [rewrite Hlog; cbn [net_log logged]; rewrite <- !app_assoc; reflexivity|]);
    (split; [exact Hgets|]);
    intros Hd; destruct (Hoff Hd) as (Hg & Hfs & _); (split; [exact Hg | exact Hfs]).
Qed.

End Effects.

(** * The claims *)

(** C1 (the code departs from it).  The sample archive has two retained
    projects, TCGA-ABC and TCGA-DEF, each with one matching file.  The
    script prints the line of TCGA-ABC, never asks for the files of
    TCGA-DEF and leaves through [exit( 0 )], the last statement of the
    body of the loop over the projects: one line where the claim wants
    two. *)
Theorem main_stops_after_first_project :
  fst (fetch_proj_ids Sample.archive Sample.empty_world)
  = Ok [JStr "TCGA-ABC"; JStr "TCGA-DEF"] /\
  reply_hits (Sample.archive [proj_request] (file_request (JStr "TCGA-ABC")))
  = Ok [Sample.maf "f1" "x.maf"] /\
  reply_hits (Sample.archive [proj_request] (file_request (JStr "TCGA-DEF")))
  = Ok [Sample.maf "f2" "y.maf"] /\
  main Sample.archive false Sample.empty_world
  = (Raise (SystemExit 0),
     {| net_log := [proj_request; file_request (JStr "TCGA-ABC")];
        stdout := [output_line "TCGA-ABC" ("f1", "x.maf")];
        fs := ∅ |}).
Proof. vm_compute. repeat split. Qed.

(** C2.  When the reply to the project search holds the records [ds]
    with the identifiers [ids], the script retains the identifiers that
    [startswith] accepts, in the order of the reply; [startswith] accepts
    exactly the strings that begin with the characters of "TCGA-"; and the
    loop over the projects is run on the retained identifiers. *)
Theorem fetch_proj_ids_prefix_filter
    (server : Server) (w : World) (ds : list json) (ids : list string) :
  reply_hits (server (net_log w) proj_request) = Ok ds ->
  Forall2 (fun d id => Py.subscript d "project_id" = Ok (JStr id)) ds ids ->
  let kept := List.filter (fun id => Py.startswith id "TCGA-") ids in
  fst (fetch_proj_ids server w) = Ok (JStr <$> kept) /\
  (forall id, Py.startswith id "TCGA-" = true <-> has_prefix "TCGA-" id) /\
  (forall download,
      main server download w
      = for_each (JStr <$> kept)
          (fun proj_id => enumerate_mafs server download proj_id ;; exit 0)
          (logged w [proj_request])).
Proof.
  intros Hds Hids kept.
  assert (Hfetch : fetch_proj_ids server w = (Ok (JStr <$> kept), logged w [proj_request])).
  { rewrite fetch_proj_ids_run, Hds.
    rewrite (comprehension_Forall2 _ ds (JStr <$> ids)).
    - now rewrite comprehension_if_strings.
    - clear -Hids. induction Hids; constructor; assumption. }
  split; [now rewrite Hfetch|].
  split; [intros id; apply startswith_spec|].
  intros download. unfold main. now rewrite bind_run, Hfetch.
Qed.

Lemma fetch_proj_ids_prefix_filter_witness :
  fst (fetch_proj_ids Sample.archive Sample.empty_world)
  = Ok [JStr "TCGA-ABC"; JStr "TCGA-DEF"].
Proof.
  refine (proj1 (fetch_proj_ids_prefix_filter Sample.archive Sample.empty_world
                   [Sample.project "TCGA-ABC"; Sample.project "OTHER-XYZ";
                    Sample.project "TCGA-DEF"]
                   ["TCGA-ABC"; "OTHER-XYZ"; "TCGA-DEF"] _ _)).
  - reflexivity.
  - repeat constructor.
Defined.

Example startswith_is_case_sensitive :
  Py.startswith "tcga-abc" "TCGA-" = false /\ Py.startswith "TCGA" "TCGA-" = false.
Proof. split; reflexivity. Qed.

(** ** The lines of a project *)

Lemma maf_line_record (proj_id : string) (maf : json) (l : string) :
  maf_line (JStr proj_id) maf = Ok l ->
  exists rec, is_record maf rec /\ l = output_line proj_id rec.
Proof.
  unfold maf_line, is_record.
  destruct (Py.subscript maf "file_id") as [file_id|]; [|discriminate].
  destruct (Py.subscript maf "file_name") as [file_name|]; [|discriminate].
  destruct file_id as [| | |fid| |]; try discriminate.
  destruct file_name as [| | |name| |]; try discriminate.
  intros [= <-]. exists (fid, name). repeat split.
Qed.

Lemma record_maf_line (proj_id : string) (maf : json) (rec : string * string) :
  is_record maf rec -> maf_line (JStr proj_id) maf = Ok (output_line proj_id rec).
Proof.
  intros [Hid Hname]. unfold maf_line. rewrite Hid, Hname. reflexivity.
Qed.

Lemma lines_records (proj_id : string) (mafs : list json) (lines : list string) :
  Forall2 (fun maf l => maf_line (JStr proj_id) maf = Ok l) mafs lines ->
  exists recs, Forall2 is_record mafs recs /\ lines = map (output_line proj_id) recs.
Proof.
  induction 1 as [|maf l mafs lines Hl _ (recs & HF & ->)].
  - exists []. split; constructor.
  - destruct (maf_line_record _ _ _ Hl) as (rec & Hrec & ->).
    exists (rec :: recs). split; [constructor; assumption | reflexivity].
Qed.

(** C3.  The records of the reply to a file search are gone through in
    their order, and each record the script gets through puts exactly one
    line on standard output: project, file identifier and file name
    with tabs between them.  The loop ends normally only after the last
    record, and it does so whenever nothing is downloaded and every
    record has an identifier and a name. *)
Theorem enumerate_mafs_one_line_per_record
    (server : Server) (download : bool) (proj_id : string)
    (mafs : list json) (w : World) :
  reply_hits (server (net_log w) (file_request (JStr proj_id))) = Ok mafs ->
  let r := fst (enumerate_mafs server download (JStr proj_id) w) in
  let w' := snd (enumerate_mafs server download (JStr proj_id) w) in
  exists recs : list (string * string),
    Forall2 is_record (take (length recs) mafs) recs /\
    stdout w' = stdout w ++ map (output_line proj_id) recs /\
    (r = Ok tt -> length recs = length mafs) /\
    (download = false ->
     Forall (fun maf => exists rec, is_record maf rec) mafs -> r = Ok tt).
Proof.
  intros Hhits. cbv zeta. rewrite enumerate_mafs_run, Hhits.
  destruct (report_loop_effect server download (JStr proj_id) mafs
              (logged w [file_request (JStr proj_id)]))
    as (lines & gets & HF & Hout & _ & _ & Hall & Hoff).
  destruct (lines_records _ _ _ HF) as (recs & Hrecs & ->).
  rewrite length_map in Hrecs, Hall.
  exists recs. split; [exact Hrecs|]. split; [exact Hout|]. split; [exact Hall|].
  intros Hd Hwf. apply (Hoff Hd).
  eapply Forall_impl; [exact Hwf|].
  intros maf [rec Hrec]. eexists. apply record_maf_line, Hrec.
Qed.

Lemma enumerate_mafs_one_line_per_record_witness :
  exists recs : list (string * string),
    Forall2 is_record (take (length recs) [Sample.maf "f1" "x.maf"]) recs /\
    stdout (snd (enumerate_mafs Sample.archive false (JStr "TCGA-ABC") Sample.empty_world))
    = [] ++ map (output_line "TCGA-ABC") recs /\
    (fst (enumerate_mafs Sample.archive false (JStr "TCGA-ABC") Sample.empty_world) = Ok tt ->
     length recs = 1) /\
    (false = false ->
     Forall (fun maf => exists rec, is_record maf rec) [Sample.maf "f1" "x.maf"] ->
     fst (enumerate_mafs Sample.archive false (JStr "TCGA-ABC") Sample.empty_world) = Ok tt).
Proof.
  apply (enumerate_mafs_one_line_per_record Sample.archive false "TCGA-ABC"
           [Sample.maf "f1" "x.maf"] Sample.empty_world).
  reflexivity.
Defined.

(** C5.  Without [--download] the file system after the run is the file
    system before it, whatever the archive answers, and none of the
    requests of the run is a download. *)
Theorem no_download_no_writes (server : Server) (w : World) :
  fs (snd (main server false w)) = fs w /\
  exists new, net_log (snd (main server false w)) = net_log w ++ new /\
              forall url, GET url ∉ new.
Proof.
  pose proof (main_effect server false w) as H. cbv zeta in H.
  destruct (fst (fetch_proj_ids server w)) as [[|proj_id rest]|e].
  1, 3: rewrite H; split; [reflexivity|]; exists [proj_request];
    (split; [reflexivity|]); intros url Hin;
    apply list_elem_of_singleton in Hin; discriminate.
  destruct (reply_hits _) as [mafs|e].
  - destruct H as (lines & gets & _ & _ & Hlog & _ & Hoff).
    destruct (Hoff eq_refl) as [-> Hfs]. split; [exact Hfs|].
    eexists. split; [exact Hlog|]. intros url Hin.
    apply elem_of_cons in Hin as [Hin|Hin]; [discriminate|].
    apply list_elem_of_singleton in Hin. discriminate.
  - rewrite H. split; [reflexivity|]. eexists. split; [reflexivity|].
    intros url Hin.
    apply elem_of_cons in Hin as [Hin|Hin]; [discriminate|].
    apply list_elem_of_singleton in Hin. discriminate.
Qed.

(** C7.  A file search that comes back with no record leaves standard
    output and the file system as they were, and the search is the only
    request made for the project: nothing is downloaded, with or
    without [--download]. *)
Theorem no_hits_no_lines_no_downloads
    (server : Server) (download : bool) (proj_id : json) (w : World)
    (r : response) (doc data : json) :
  server (net_log w) (file_request proj_id) = Answer r ->
  resp_json r = Some doc ->
  Py.subscript doc "data" = Ok data ->
  Py.subscript data "hits" = Ok (JArr []) ->
  let w' := snd (enumerate_mafs server download proj_id w) in
  fst (enumerate_mafs server download proj_id w) = Ok tt /\
  stdout w' = stdout w /\
  fs w' = fs w /\
  net_log w' = net_log w ++ [file_request proj_id].
Proof.
  intros Hr Hdoc Hdata Hhits. cbv zeta.
  rewrite enumerate_mafs_run. unfold reply_hits.
  rewrite Hr, Hdoc, Hdata, Hhits. repeat split.
Qed.

Lemma no_hits_no_lines_no_downloads_witness :
  let w := Sample.empty_world in
  let w' := snd (enumerate_mafs Sample.archive true (JStr "TCGA-XYZ") w) in
  fst (enumerate_mafs Sample.archive true (JStr "TCGA-XYZ") w) = Ok tt /\
  stdout w' = stdout w /\
  fs w' = fs w /\
  net_log w' = net_log w ++ [file_request (JStr "TCGA-XYZ")].
Proof.
  exact (no_hits_no_lines_no_downloads Sample.archive true (JStr "TCGA-XYZ")
           Sample.empty_world
           {| resp_json := Some (Sample.hits_doc []); resp_chunks := []; resp_intact := true |}
           (Sample.hits_doc []) (JObj [("hits", JArr [])])
           eq_refl eq_refl eq_refl eq_refl).
Defined.

(** ** The payload of a file search *)

Lemma payload_shape (proj_id : json) :
  and_of_three_equalities proj_id (payload proj_id).
Proof.
  unfold and_of_three_equalities, equality_clause, payload.
  do 4 eexists. repeat split; try reflexivity; eexists; repeat split; reflexivity.
Qed.

Lemma comprehension_if_kept (p : string) (l ids : list json) :
  Py.comprehension_if (fun d => Py.startswith_method d p) l = Ok ids ->
  Forall (fun d => exists s, d = JStr s /\ has_prefix p s) ids.
Proof.
  revert ids; induction l as [|d l IH]; intros ids; simpl.
  - intros [= <-]. constructor.
  - destruct d as [| | |s| |]; simpl; try discriminate.
    destruct (Py.comprehension_if _ l) as [xs|]; [|discriminate].
    specialize (IH xs eq_refl).
    destruct (Py.startswith s p) eqn:E; intros [= <-]; [|exact IH].
    constructor; [|exact IH]. exists s. split; [reflexivity|].
    apply startswith_spec, E.
Qed.

Lemma fetch_proj_ids_kept (server : Server) (w : World) (ids : list json) :
  fst (fetch_proj_ids server w) = Ok ids ->
  Forall (fun d => exists s, d = JStr s /\ has_prefix "TCGA-" s) ids.
Proof.
  rewrite fetch_proj_ids_run. cbn [fst].
  destruct (reply_hits _) as [ds|]; [|discriminate].
  destruct (Py.comprehension _ ds) as [xs|]; [|discriminate].
  apply comprehension_if_kept.
Qed.

(** C4.  The payload built for a project has as its filter the
    conjunction of exactly three equalities: [cases.project.project_id]
    with that project, [files.data_format] with "MAF" and [access] with
    "open".  The file stage of a project sends this payload, built for
    that very project, to the file endpoint as its first request and
    sends no other search; and a run that retains a project sends the
    payload of the first retained project, whatever and however many the
    retained projects are. *)
Theorem file_search_payload_shape (server : Server) (download : bool) (w : World) :
  (forall proj_id, and_of_three_equalities proj_id (payload proj_id)) /\
  (forall proj_id w1,
      exists gets,
        net_log (snd (enumerate_mafs server download proj_id w1))
        = net_log w1 ++ POST file_ep (Json (payload proj_id)) :: gets /\
        Forall is_get gets) /\
  (forall first others,
      fst (fetch_proj_ids server w) = Ok (first :: others) ->
      exists proj_id gets,
        first = JStr proj_id /\
        has_prefix "TCGA-" proj_id /\
        net_log (snd (main server download w))
        = net_log w ++ proj_request :: POST file_ep (Json (payload (JStr proj_id))) :: gets /\
        Forall is_get gets).
Proof.
  split; [apply payload_shape|]. split.
  - intros proj_id w1. rewrite enumerate_mafs_run.
    destruct (reply_hits _) as [mafs|e].
    + destruct (report_loop_effect server download proj_id mafs
                  (logged w1 [file_request proj_id]))
        as (lines & gets & _ & _ & Hlog & Hgets & _).
      exists gets. split; [|exact Hgets].
      rewrite Hlog. cbn [net_log logged]. now rewrite <- app_assoc.
    + exists []. split; [reflexivity | constructor].
  - intros first others Hids.
    pose proof (fetch_proj_ids_kept server w _ Hids) as Hkept.
    inversion Hkept as [|? ? (proj_id & -> & Hprefix) _]; subst.
    pose proof (main_effect server download w) as H. cbv zeta in H. rewrite Hids in H.
    exists proj_id.
    destruct (reply_hits _) as [mafs|e].
    + destruct H as (lines & gets & _ & _ & Hlog & Hgets & _).
      exists gets. repeat split; assumption.
    + rewrite H. exists []. repeat split; [exact Hprefix | constructor].
Qed.

Lemma file_search_payload_shape_witness :
  exists proj_id gets,
    JStr "TCGA-ABC" = JStr proj_id /\
    has_prefix "TCGA-" proj_id /\
    net_log (snd (main Sample.archive true Sample.empty_world))
    = net_log Sample.empty_world
      ++ proj_request :: POST file_ep (Json (payload (JStr proj_id))) :: gets /\
    Forall is_get gets.
Proof.
  apply (proj2 (proj2 (file_search_payload_shape Sample.archive true Sample.empty_world))
           (JStr "TCGA-ABC") [JStr "TCGA-DEF"]).
  reflexivity.
Defined.

Example payload_of_a_project :
  and_of_three_equalities (JStr "TCGA-DEF") (payload (JStr "TCGA-DEF")) /\
  ~ and_of_three_equalities (JStr "TCGA-ABC") (payload (JStr "TCGA-DEF")).
Proof.
  split; [apply payload_shape|].
  intros (filters & c1 & c2 & c3 & Hf & _ & Hc & (_ & content & H1 & _ & H2) & _).
  cbn in Hf. injection Hf as <-. cbn in Hc. injection Hc as <- _ _.
  cbn in H1. injection H1 as <-. cbn in H2. discriminate.
Qed.

(** ** Failures *)

Lemma lacks_raise (k : string) (v : json) :
  lacks k v -> exists e, Py.subscript v k = Raise e /\ is_error e.
Proof.
  destruct v as [| | | | |members]; simpl;
    try (intros _; exists TypeError; split; [reflexivity | exact I]).
  intros ->. exists (KeyError k). split; [reflexivity | exact I].
Qed.

Lemma failed_search_raise (rp : reply) :
  failed_search rp -> exists e, reply_hits rp = Raise e /\ is_error e.
Proof.
  intros [|r Hr|r doc Hr Hdoc|r doc data Hr Hdoc Hdata]; unfold reply_hits.
  - exists RequestException. split; [reflexivity | exact I].
  - rewrite Hr. exists ValueError. split; [reflexivity | exact I].
  - rewrite Hr. destruct (lacks_raise _ _ Hdoc) as (e & -> & He). eauto.
  - rewrite Hr, Hdoc. destruct (lacks_raise _ _ Hdata) as (e & -> & He). eauto.
Qed.

Lemma comprehension_lacks_raise (k : string) (ds : list json) :
  Exists (lacks k) ds ->
  exists e, Py.comprehension (fun d => Py.subscript d k) ds = Raise e /\ is_error e.
Proof.
  induction ds as [|d ds IH]; intros H; [inversion H|]. simpl.
  destruct (Py.subscript d k) as [x|e] eqn:E.
  - inversion H as [? ? Hd|? ? Hds]; subst.
    + destruct (lacks_raise _ _ Hd) as (e & He & _). congruence.
    + destruct (IH Hds) as (e & -> & He). eauto.
  - exists e. split; [reflexivity|].
    destruct d; simpl in E; try (injection E as <-; exact I).
    destruct (Py.assoc k members); [discriminate | injection E as <-; exact I].
Qed.

Section Refusal.

Variable server : Server.

(** A download that is refused: the line of the record is out, the
    request is on the log once, and the file system has not been
    touched. *)
Lemma report_maf_refused (proj_id : string) (maf : json) (rec : string * string) (w : World) :
  is_record maf rec ->
  server (net_log w) (GET (data_ep +:+ rec.1)) = Refused ->
  report_maf server true (JStr proj_id) maf w
  = (Raise RequestException,
     logged (printed w [output_line proj_id rec]) [GET (data_ep +:+ rec.1)]).
Proof.
  destruct rec as [file_id file_name]. intros [Hid Hname] Hget.
  cbn [fst snd] in *. unfold report_maf.
  rewrite bind_lift, Hid, bind_lift, Hname, bind_lift.
  change (Py.join _ [JStr proj_id; JStr file_id; JStr file_name])
    with (Ok (output_line proj_id (file_id, file_name))).
  cbv beta iota. rewrite bind_run.
  change (print _ w) with (Ok tt, printed w [output_line proj_id (file_id, file_name)]).
  cbv beta iota. rewrite !bind_lift.
  change (Py.join "/" [JStr "mafs"; JStr proj_id; JStr file_name])
    with (Ok (String.concat "/" ["mafs"; proj_id; file_name])).
  cbv beta iota. rewrite bind_run. unfold download_file.
  rewrite bind_lift. cbn [Py.add]. unfold requests_get.
  rewrite bind_run, send_run. cbn [net_log printed]. now rewrite Hget.
Qed.

(** An exception ends the loop it is raised in. *)
Lemma for_each_raise {A} (body : A -> M unit) (x : A) (rest : list A)
      (w w' : World) (e : exn) :
  body x w = (Raise e, w') -> for_each (x :: rest) body w = (Raise e, w').
Proof. intros H. cbn [for_each]. now rewrite bind_run, H. Qed.

End Refusal.

(** C8.  When the project search fails (the request fails, the reply is
    no JSON document, or ['data'], ['hits'] or a ['project_id'] is
    missing) the run ends with an error after that one request; when the
    file search of the project at hand fails, it ends with an error after
    these two requests.  Either way nothing has been printed, nothing has
    been written and no request has been made a second time.  A download
    that is refused raises in the same way: the request is made once and
    the file system is left as it was. *)
Theorem failure_propagates (server : Server) (download : bool) (w : World) :
  (failed_project_list (server (net_log w) proj_request) ->
   exists e, is_error e /\
             main server download w = (Raise e, logged w [proj_request])) /\
  (forall proj_id rest,
      fst (fetch_proj_ids server w) = Ok (proj_id :: rest) ->
      failed_search (server (net_log w ++ [proj_request]) (file_request proj_id)) ->
      exists e, is_error e /\
                main server download w
                = (Raise e, logged w [proj_request; file_request proj_id])) /\
  (forall proj_id maf rec rest w1,
      is_record maf rec ->
      server (net_log w1) (GET (data_ep +:+ rec.1)) = Refused ->
      exists e w2,
        is_error e /\
        for_each (maf :: rest) (report_maf server true (JStr proj_id)) w1 = (Raise e, w2) /\
        net_log w2 = net_log w1 ++ [GET (data_ep +:+ rec.1)] /\
        fs w2 = fs w1).
Proof.
  pose proof (main_effect server download w) as H. cbv zeta in H.
  split; [|split].
  - intros Hfail.
    assert (exists e, fst (fetch_proj_ids server w) = Raise e /\ is_error e) as (e & He & Herr).
    { rewrite fetch_proj_ids_run. cbn [fst]. destruct Hfail as [Hfail|(ds & -> & Hds)].
      - destruct (failed_search_raise _ Hfail) as (e & -> & He). eauto.
      - destruct (comprehension_lacks_raise _ _ Hds) as (e & -> & He). eauto. }
    rewrite He in H. eauto.
  - intros proj_id rest Hids Hfail. rewrite Hids in H.
    destruct (failed_search_raise _ Hfail) as (e & He & Herr).
    rewrite He in H. eauto.
  - intros proj_id maf rec rest w1 Hrec Hget.
    exists RequestException. eexists. split; [exact I|].
    split; [apply for_each_raise, (report_maf_refused server proj_id maf rec w1 Hrec Hget)|].
    split; reflexivity.
Qed.

Lemma failure_propagates_witness :
  (exists e, is_error e /\
             main Sample.unreachable true Sample.empty_world
             = (Raise e, logged Sample.empty_world [proj_request])) /\
  (exists e, is_error e /\
             main Sample.broken_archive true Sample.empty_world
             = (Raise e, logged Sample.empty_world
                           [proj_request; file_request (JStr "TCGA-ABC")])) /\
  (exists e w2,
      is_error e /\
      for_each [Sample.maf "f1" "x.maf"] (report_maf Sample.unreachable true (JStr "TCGA-ABC"))
        Sample.empty_world = (Raise e, w2) /\
      net_log w2 = net_log Sample.empty_world ++ [GET (data_ep +:+ "f1")] /\
      fs w2 = fs Sample.empty_world).
Proof.
  split; [|split].
  - apply (proj1 (failure_propagates Sample.unreachable true Sample.empty_world)).
    left. constructor.
  - apply (proj1 (proj2 (failure_propagates Sample.broken_archive true Sample.empty_world))
             (JStr "TCGA-ABC") []).
    + reflexivity.
    + eapply search_no_data; reflexivity.
  - apply (proj2 (proj2 (failure_propagates Sample.unreachable true Sample.empty_world))
             "TCGA-ABC" (Sample.maf "f1" "x.maf") ("f1", "x.maf") [] Sample.empty_world).
    + split; reflexivity.
    + reflexivity.
Defined.

(** ** The cap on the number of records *)

Lemma comprehension_length {A B} (f : A -> result B) (l : list A) (ys : list B) :
  Py.comprehension f l = Ok ys -> length ys = length l.
Proof.
  revert ys; induction l as [|d l IH]; intros ys; simpl.
  - intros [= <-]. reflexivity.
  - destruct (f d); [|discriminate].
    destruct (Py.comprehension f l) as [xs|]; [|discriminate].
    intros [= <-]. simpl. f_equal. apply IH. reflexivity.
Qed.

Lemma comprehension_if_length {A} (c : A -> result bool) (l ys : list A) :
  Py.comprehension_if c l = Ok ys -> length ys <= length l.
Proof.
  revert ys; induction l as [|d l IH]; intros ys; simpl.
  - intros [= <-]. reflexivity.
  - destruct (c d) as [b|]; [|discriminate].
    destruct (Py.comprehension_if c l) as [xs|]; [|discriminate].
    specialize (IH xs eq_refl).
    intros [= <-]. destruct b; simpl; lia.
Qed.

(** C9, as the claim states it, fails: the script asks for at most
    1000 records but takes as many as it is given.  The archive
    [Sample.big_archive] answers the file search of a project, which
    asks for the size "1000", with 1001 records, and the run prints 1001
    lines: the number of lines of a run is not bounded by 1000. *)
Lemma more_than_1000_files_enumerated :
  request_size (file_request (JStr "TCGA-ABC")) = Some "1000" /\
  length (stdout (snd (main Sample.big_archive false Sample.empty_world))) = 1001 /\
  ~ (forall (server : Server) (download : bool) (w : World),
        length (stdout (snd (main server download w))) <= length (stdout w) + 1000).
Proof.
  split; [reflexivity|].
  assert (H : length (stdout (snd (main Sample.big_archive false Sample.empty_world))) = 1001)
    by (vm_compute; reflexivity).
  split; [exact H|].
  intros Hall. specialize (Hall Sample.big_archive false Sample.empty_world).
  rewrite H in Hall. simpl in Hall. lia.
Qed.

(** C9, amended.  Both searches ask for the size "1000"; a run makes
    one project search and at most one file search, so that no second
    page is ever asked for; and when the archive honours the size, at
    most 1000 projects are retained and at most 1000 lines are printed
    for the project at hand. *)
Theorem result_cap (server : Server) (download : bool) (w : World) :
  let w' := snd (main server download w) in
  request_size proj_request = Some "1000" /\
  (forall proj_id, request_size (file_request proj_id) = Some "1000") /\
  (exists gets,
      Forall is_get gets /\
      (net_log w' = net_log w ++ [proj_request] \/
       exists proj_id,
         net_log w' = net_log w ++ proj_request :: file_request proj_id :: gets)) /\
  (honours_cap server ->
   (forall ids, fst (fetch_proj_ids server w) = Ok ids -> length ids <= 1000) /\
   length (stdout w') <= length (stdout w) + 1000).
Proof.
  cbv zeta. split; [reflexivity|]. split; [reflexivity|].
  pose proof (main_effect server download w) as H. cbv zeta in H. split.
  - destruct (fst (fetch_proj_ids server w)) as [[|proj_id rest]|e].
    1, 3: rewrite H; exists []; split; [constructor | left; reflexivity].
    destruct (reply_hits _) as [mafs|e].
    + destruct H as (lines & gets & _ & _ & Hlog & Hgets & _).
      exists gets. split; [exact Hgets|]. right. exists proj_id. exact Hlog.
    + rewrite H. exists []. split; [constructor|]. right. exists proj_id. reflexivity.
  - intros Hcap. split.
    + intros ids. rewrite fetch_proj_ids_run. cbn [fst].
      destruct (reply_hits _) as [ds|] eqn:Hds; [|discriminate].
      destruct (Py.comprehension _ ds) as [xs|] eqn:Hxs; [|discriminate].
      intros Hids. apply comprehension_if_length in Hids.
      apply comprehension_length in Hxs. apply Hcap in Hds; [lia | reflexivity].
    + destruct (fst (fetch_proj_ids server w)) as [[|proj_id rest]|e].
      1, 3: rewrite H; simpl; lia.
      destruct (reply_hits _) as [mafs|e] eqn:Hmafs.
      * destruct H as (lines & gets & HF & Hout & _).
        apply Hcap in Hmafs; [|reflexivity].
        apply Forall2_length in HF. rewrite length_take in HF.
        rewrite Hout, length_app. lia.
      * rewrite H. simpl. lia.
Qed.

Lemma result_cap_witness :
  (forall ids, fst (fetch_proj_ids Sample.archive Sample.empty_world) = Ok ids ->
               length ids <= 1000) /\
  length (stdout (snd (main Sample.archive false Sample.empty_world)))
  <= length (stdout Sample.empty_world) + 1000.
Proof.
  apply (result_cap Sample.archive false Sample.empty_world).
  intros log req ds _ H.
  destruct req as [url [fields|doc]|url]; simpl in H.
  - injection H as <-. simpl. lia.
  - destruct (String.eqb (Sample.asked_project doc) "TCGA-ABC");
      [|destruct (String.eqb (Sample.asked_project doc) "TCGA-DEF")];
      injection H as <-; simpl; lia.
  - discriminate.
Defined.

(** ** Downloads *)

Lemma with_fs_same (w : World) : Os.with_fs w (fs w) = w.
Proof. destruct w; reflexivity. Qed.

Lemma open_wb_in_ok (m m' : Os.tree) (p : string) :
  Os.open_wb_in m p = Ok m' -> m' = <[p := File []]> m.
Proof.
  unfold Os.open_wb_in. destruct (String.eqb p ""); [discriminate|].
  destruct (m !! p) as [[|old]|].
  - discriminate.
  - now intros [= <-].
  - destruct (String.eqb (Path.dirname p) ""); [now intros [= <-]|].
    destruct (m !! Path.dirname p) as [[|?]|]; try discriminate. now intros [= <-].
Qed.

(** The loop over the chunks appends the chunks that are not empty to
    the open file. *)
Lemma write_chunks_run (fh : string) (cs : list bytes) (w : World) (old : bytes) :
  fs w !! fh = Some (File old) ->
  for_each cs (fun chunk => if nonempty chunk then Os.write fh chunk else ret tt) w
  = (Ok tt, Os.with_fs w (<[fh := File (old ++ mjoin (List.filter nonempty cs))]> (fs w))).
Proof.
  revert w old. induction cs as [|c cs IH]; intros w old Hfh; cbn [for_each List.filter].
  - simpl. rewrite app_nil_r, insert_id by exact Hfh. now rewrite with_fs_same.
  - rewrite bind_run. destruct c as [|b c]; cbn [nonempty].
    + unfold ret at 1. now apply IH.
    + unfold Os.write, Os.update, Os.write_in. rewrite Hfh.
      rewrite (IH _ (old ++ b :: c)) by apply lookup_insert_eq.
      unfold Os.with_fs. cbn [fs net_log stdout].
      now rewrite insert_insert_eq, <- app_assoc.
Qed.

Section Download.

Variable server : Server.

(** A download whose request is answered, whose directory is there or
    can be made, and whose destination can be opened. *)
Lemma download_file_run (file_id filepath : string) (w : World) (r : response)
      (m1 m2 : Os.tree) :
  server (net_log w) (GET (data_ep +:+ file_id)) = Answer r ->
  (if Os.exists_in (fs w) (Path.dirname filepath) then Ok (fs w)
   else Os.makedirs_in (S (String.length (Path.dirname filepath))) (fs w)
          (Path.dirname filepath)) = Ok m1 ->
  Os.open_wb_in m1 filepath = Ok m2 ->
  download_file server (JStr file_id) filepath w
  = (if resp_intact r then Ok filepath else Raise RequestException,
     Os.with_fs (logged w [GET (data_ep +:+ file_id)])
       (<[filepath := File (mjoin (resp_chunks r))]> m1)).
Proof.
  intros Hr Hdir Hopen.
  unfold download_file. rewrite bind_lift. cbn [Py.add].
  unfold requests_get. rewrite bind_run, send_run, Hr.
  set (w1 := logged w [GET (data_ep +:+ file_id)]).
  rewrite bind_run. unfold Os.path_exists. change (fs w1) with (fs w).
  rewrite bind_run.
  assert (Hprep : (if negb (Os.exists_in (fs w) (Path.dirname filepath))
                   then Os.makedirs (Path.dirname filepath) else ret tt) w1
                  = (Ok tt, Os.with_fs w1 m1)).
  { destruct (Os.exists_in (fs w) (Path.dirname filepath)); cbn [negb].
    - injection Hdir as <-. unfold ret. now rewrite <- (with_fs_same w1) at 1.
    - unfold Os.makedirs, Os.update. change (fs w1) with (fs w). now rewrite Hdir. }
  rewrite Hprep. rewrite bind_run.
  pose proof (open_wb_in_ok _ _ _ Hopen) as ->.
  unfold Os.open_wb. rewrite bind_run. unfold Os.update at 1.
  cbn [fs Os.with_fs]. rewrite Hopen. unfold ret at 1.
  rewrite bind_run, (write_chunks_run _ _ _ []) by apply lookup_insert_eq.
  cbn [fs Os.with_fs net_log stdout app].
  rewrite insert_insert_eq, mjoin_filter_nonempty, bind_run.
  destruct (resp_intact r); reflexivity.
Qed.

End Download.

(** ** Making the directories of a project *)

Lemma makedirs_in_top (n : nat) (m : Os.tree) (name : string) :
  Path.dirname name = "" ->
  Os.makedirs_in (S n) m name = Os.mkdir_in m name.
Proof.
  intros Hhead. cbn [Os.makedirs_in]. unfold Path.split. rewrite Hhead.
  destruct (nonempty_str (Path.basename name)); reflexivity.
Qed.

Lemma makedirs_in_nested (n : nat) (m : Os.tree) (name head tail : string) :
  Path.split name = (head, tail) ->
  nonempty_str head = true ->
  nonempty_str tail = true ->
  String.eqb tail "." = false ->
  Os.makedirs_in (S n) m name =
    if Os.exists_in m head then Os.mkdir_in m name
    else match Os.makedirs_in n m head with
         | Ok m' => Os.mkdir_in m' name
         | Raise FileExistsError => Os.mkdir_in m name
         | Raise e => Raise e
         end.
Proof.
  intros Hsplit Hhead Htail Hdot. cbn [Os.makedirs_in].
  rewrite Hsplit. cbn beta iota. rewrite Htail. cbn beta iota.
  rewrite Hhead, Htail, Hdot. cbn [andb].
  destruct (Os.exists_in m head); reflexivity.
Qed.

Lemma makedirs_project (m : Os.tree) :
  m !! "mafs/TCGA-ABC" = None ->
  m !! "mafs" = None \/ m !! "mafs" = Some Dir ->
  Os.makedirs_in (S (String.length "mafs/TCGA-ABC")) m "mafs/TCGA-ABC"
  = Ok (<["mafs/TCGA-ABC" := Dir]> (<["mafs" := Dir]> m)).
Proof.
  intros Hdir Hroot.
  assert (Hleaf : forall m' : Os.tree,
             m' !! "mafs/TCGA-ABC" = None -> m' !! "mafs" = Some Dir ->
             Os.mkdir_in m' "mafs/TCGA-ABC" = Ok (<["mafs/TCGA-ABC" := Dir]> m')).
  { intros m' H1 H2. unfold Os.mkdir_in. cbn [String.eqb]. rewrite H1.
    change (Path.dirname "mafs/TCGA-ABC") with "mafs". cbn [String.eqb].
    now rewrite H2. }
  rewrite (makedirs_in_nested _ m _ "mafs" "TCGA-ABC") by reflexivity.
  unfold Os.exists_in. cbn [String.eqb].
  destruct Hroot as [Hroot|Hroot]; rewrite Hroot.
  - change (String.length "mafs/TCGA-ABC") with (S 12).
    rewrite makedirs_in_top by reflexivity.
    assert (Os.mkdir_in m "mafs" = Ok (<["mafs" := Dir]> m)) as ->.
    { unfold Os.mkdir_in. cbn [String.eqb]. now rewrite Hroot. }
    apply Hleaf; [|apply lookup_insert_eq].
    now rewrite lookup_insert_ne by discriminate.
  - rewrite (insert_id m "mafs") by exact Hroot. now apply Hleaf.
Qed.

Lemma open_wb_in_ready (m : Os.tree) (p : string) :
  Path.dirname p <> "" ->
  m !! Path.dirname p = Some Dir ->
  m !! p <> Some Dir ->
  Os.open_wb_in m p = Ok (<[p := File []]> m).
Proof.
  intros Hne Hdir Hp. unfold Os.open_wb_in.
  destruct (String.eqb_spec p "") as [->|_]; [now destruct Hne|].
  destruct (m !! p) as [[|old]|]; [now destruct Hp | reflexivity |].
  destruct (String.eqb_spec (Path.dirname p) "") as [E|_]; [reflexivity|].
  now rewrite Hdir.
Qed.

Example stale_file_is_replaced :
  fs Sample.stale_world !! "mafs/TCGA-ABC/x.maf"
  = Some (File [x6f; x6c; x64; x20; x64; x61; x74; x61]) /\
  download_file Sample.archive (JStr "f1") "mafs/TCGA-ABC/x.maf" Sample.stale_world
  = (Ok "mafs/TCGA-ABC/x.maf",
     {| net_log := [GET (data_ep +:+ "f1")];
        stdout := [];
        fs := <["mafs/TCGA-ABC/x.maf" := File [x41; x42; x43]]>
                (<["mafs/TCGA-ABC" := Dir]> (<["mafs" := Dir]> ∅)) |}).
Proof. split; vm_compute; reflexivity. Qed.

(** C6.  With [--download], the record of the file "x.maf" with the
    identifier [F] under the project "TCGA-ABC" is downloaded to
    mafs/TCGA-ABC/x.maf: the directory mafs/TCGA-ABC is there afterwards,
    made together with mafs when it was missing, and the file holds the
    chunks of the response that are not empty one after the other, which
    is the whole body. *)
Theorem download_writes_full_body
    (server : Server) (F : string) (maf : json) (w : World) (r : response) :
  is_record maf (F, "x.maf") ->
  server (net_log w) (GET (data_ep +:+ F)) = Answer r ->
  resp_intact r = true ->
  fs w !! "mafs/TCGA-ABC/x.maf" <> Some Dir ->
  fs w !! "mafs/TCGA-ABC" = Some Dir \/
  (fs w !! "mafs/TCGA-ABC" = None /\
   (fs w !! "mafs" = None \/ fs w !! "mafs" = Some Dir)) ->
  let w' := snd (report_maf server true (JStr "TCGA-ABC") maf w) in
  fst (report_maf server true (JStr "TCGA-ABC") maf w) = Ok tt /\
  fs w' !! "mafs/TCGA-ABC" = Some Dir /\
  (fs w !! "mafs/TCGA-ABC" = None -> fs w' !! "mafs" = Some Dir) /\
  fs w' !! "mafs/TCGA-ABC/x.maf"
  = Some (File (mjoin (List.filter nonempty (resp_chunks r)))) /\
  mjoin (List.filter nonempty (resp_chunks r)) = mjoin (resp_chunks r).
Proof.
  intros [Hid Hname] Hr Hintact Hfile Hdir. cbn [fst snd] in Hid, Hname. cbv zeta.
  set (path := "mafs/TCGA-ABC/x.maf"). set (dir := "mafs/TCGA-ABC").
  assert (exists m1,
             (if Os.exists_in (fs w) (Path.dirname path) then Ok (fs w)
              else Os.makedirs_in (S (String.length (Path.dirname path))) (fs w)
                     (Path.dirname path)) = Ok m1 /\
             m1 !! dir = Some Dir /\
             (fs w !! dir = None -> m1 !! "mafs" = Some Dir) /\
             m1 !! path = fs w !! path) as (m1 & Hm1 & Hd1 & Hroot1 & Hp1).
  { change (Path.dirname path) with dir. unfold Os.exists_in. cbn [String.eqb dir].
    destruct Hdir as [Hd|[Hd Hroot]]; fold dir in Hd; rewrite Hd.
    - exists (fs w). repeat split; [exact Hd | discriminate].
    - eexists. split; [apply makedirs_project; assumption|].
      split; [apply lookup_insert_eq|].
      split; [intros _; rewrite lookup_insert_ne by discriminate; apply lookup_insert_eq|].
      now rewrite !lookup_insert_ne by discriminate. }
  assert (Hopen : Os.open_wb_in m1 path = Ok (<[path := File []]> m1)).
  { apply open_wb_in_ready; [discriminate | exact Hd1 | rewrite Hp1; exact Hfile]. }
  unfold report_maf.
  rewrite bind_lift, Hid, bind_lift, Hname, bind_lift.
  change (Py.join _ [JStr "TCGA-ABC"; JStr F; JStr "x.maf"])
    with (Ok (output_line "TCGA-ABC" (F, "x.maf"))).
  cbv beta iota. rewrite bind_run.
  change (print _ w) with (Ok tt, printed w [output_line "TCGA-ABC" (F, "x.maf")]).
  cbv beta iota. rewrite !bind_lift.
  change (Py.join "/" [JStr "mafs"; JStr "TCGA-ABC"; JStr "x.maf"]) with (Ok path).
  cbv beta iota. rewrite bind_run.
  rewrite (download_file_run server F path
             (printed w [output_line "TCGA-ABC" (F, "x.maf")]) r m1 _ Hr Hm1 Hopen),
    Hintact.
  cbn [fst snd fs Os.with_fs ret]. rewrite mjoin_filter_nonempty.
  split; [reflexivity|].
  split; [now rewrite lookup_insert_ne by discriminate|].
  split; [intros Hnone; rewrite lookup_insert_ne by discriminate; now apply Hroot1|].
  split; [apply lookup_insert_eq | reflexivity].
Qed.

Lemma download_writes_full_body_witness :
  let w := Sample.empty_world in
  let w' := snd (report_maf Sample.archive true (JStr "TCGA-ABC") (Sample.maf "f1" "x.maf") w) in
  fst (report_maf Sample.archive true (JStr "TCGA-ABC") (Sample.maf "f1" "x.maf") w) = Ok tt /\
  fs w' !! "mafs/TCGA-ABC" = Some Dir /\
  (fs w !! "mafs/TCGA-ABC" = None -> fs w' !! "mafs" = Some Dir) /\
  fs w' !! "mafs/TCGA-ABC/x.maf" = Some (File (mjoin (List.filter nonempty Sample.body))) /\
  mjoin (List.filter nonempty Sample.body) = mjoin Sample.body.
Proof.
  apply (download_writes_full_body Sample.archive "f1" (Sample.maf "f1" "x.maf")
           Sample.empty_world
           {| resp_json := None; resp_chunks := Sample.body; resp_intact := true |}).
  - split; reflexivity.
  - reflexivity.
  - reflexivity.
  - vm_compute. discriminate.
  - right. split; [reflexivity | left; reflexivity].
Defined.

Example download_of_the_sample :
  let w' := snd (main Sample.archive true Sample.empty_world) in
  map_to_list (fs w')
  = [("mafs/TCGA-ABC/x.maf", File [x41; x42; x43]); ("mafs/TCGA-ABC", Dir); ("mafs", Dir)].
Proof. vm_compute. reflexivity. Qed.

(** ** The fuel of [os.makedirs] is never used up *)

Lemma length_string_of_list_ascii (l : list ascii) :
  String.length (String.string_of_list_ascii l) = length l.
Proof. induction l as [|c l IH]; simpl; [reflexivity | now rewrite IH]. Qed.

Lemma length_list_ascii_of_string (s : string) :
  length (String.list_ascii_of_string s) = String.length s.
Proof. induction s as [|c s IH]; simpl; [reflexivity | now rewrite IH]. Qed.

Lemma drop_while_length (f : ascii -> bool) (l : list ascii) :
  length (Path.drop_while f l) <= length l.
Proof.
  induction l as [|c l IH]; simpl; [lia|]. destruct (f c); simpl; lia.
Qed.

Lemma dirname_bound (p : string) (rhead : list ascii) :
  rhead = Path.drop_while (fun c => negb (Path.is_slash c))
            (rev (String.list_ascii_of_string p)) ->
  String.length (Path.dirname p) <= length rhead.
Proof.
  intros ->. unfold Path.dirname.
  destruct (forallb _ _); rewrite length_string_of_list_ascii, length_rev;
    [lia | apply drop_while_length].
Qed.

Lemma dirname_length (p : string) :
  String.length (Path.dirname p) <= String.length p.
Proof.
  pose proof (dirname_bound p _ eq_refl) as H.
  pose proof (drop_while_length (fun c => negb (Path.is_slash c))
                (rev (String.list_ascii_of_string p))) as H'.
  rewrite length_rev, length_list_ascii_of_string in H'. lia.
Qed.

Lemma dirname_shorter (p : string) :
  nonempty_str (Path.basename p) = true ->
  String.length (Path.dirname p) < String.length p.
Proof.
  intros Hbase. pose proof (dirname_bound p _ eq_refl) as H.
  rewrite <- (length_list_ascii_of_string p), <- length_rev.
  unfold Path.basename in Hbase.
  destruct (rev (String.list_ascii_of_string p)) as [|c rest]; [discriminate|].
  cbn [Path.take_until_slash Path.drop_while] in *.
  destruct (Path.is_slash c); [discriminate|].
  cbn [negb length] in *.
  pose proof (drop_while_length (fun c => negb (Path.is_slash c)) rest). lia.
Qed.

Lemma mkdir_in_no_recursion (m : Os.tree) (p : string) :
  Os.mkdir_in m p <> Raise RecursionError.
Proof.
  unfold Os.mkdir_in. destruct (String.eqb p ""); [discriminate|].
  destruct (m !! p); [discriminate|].
  destruct (String.eqb (Path.dirname p) ""); [discriminate|].
  destruct (m !! Path.dirname p) as [[|?]|]; discriminate.
Qed.

(** [Os.makedirs] gives [os.makedirs] one unit of fuel more than the
    path has characters: the recursion never runs out of it. *)
Lemma makedirs_in_fuel (n : nat) (m : Os.tree) (name : string) :
  String.length name < n -> Os.makedirs_in n m name <> Raise RecursionError.
Proof.
  revert name. induction n as [|n IH]; intros name Hlen; [lia|].
  cbn [Os.makedirs_in]. unfold Path.split.
  assert (Hstep : forall head tail,
             String.length head < n ->
             match Os.makedirs_in n m head with
             | Ok m' => if String.eqb tail "." then Ok m' else Os.mkdir_in m' name
             | Raise FileExistsError =>
                 if String.eqb tail "." then Ok m else Os.mkdir_in m name
             | Raise e => Raise e
             end <> Raise RecursionError).
  { intros head tail Hhead. specialize (IH head Hhead).
    destruct (Os.makedirs_in n m head) as [m'|e].
    - destruct (String.eqb tail "."); [discriminate | apply mkdir_in_no_recursion].
    - destruct e; try discriminate; try (now destruct IH).
      destruct (String.eqb tail "."); [discriminate | apply mkdir_in_no_recursion]. }
  destruct (nonempty_str (Path.basename name)) eqn:Htail.
  - destruct (_ && _ && _); [|apply mkdir_in_no_recursion].
    apply Hstep. pose proof (dirname_shorter name Htail). lia.
  - destruct (nonempty_str (Path.basename (Path.dirname name))) eqn:Htail';
      [|rewrite andb_false_r; apply mkdir_in_no_recursion].
    destruct (_ && _ && _); [|apply mkdir_in_no_recursion].
    apply Hstep. pose proof (dirname_shorter _ Htail').
    pose proof (dirname_length name). lia.
Qed.


(** * Further properties of the script *)

(** ** Exceptions that are errors *)

Lemma subscript_error (v : json) (k : string) (e : exn) :
  Py.subscript v k = Raise e -> is_error e.
Proof.
  destruct v as [| | | | |members]; simpl; try (intros [= <-]; exact I).
  destruct (Py.assoc k members); [discriminate | intros [= <-]; exact I].
Qed.

Lemma iter_error (v : json) (e : exn) : Py.iter v = Raise e -> is_error e.
Proof. destruct v; simpl; try discriminate; intros [= <-]; exact I. Qed.

Lemma join_error (sep : string) (l : list json) (e : exn) :
  Py.join sep l = Raise e -> is_error e.
Proof. unfold Py.join. destruct (Py.strings_of l); [discriminate | intros [= <-]; exact I]. Qed.

Lemma add_error (s : string) (v : json) (e : exn) : Py.add s v = Raise e -> is_error e.
Proof. destruct v; simpl; try discriminate; intros [= <-]; exact I. Qed.

Lemma reply_hits_error (rp : reply) (e : exn) : reply_hits rp = Raise e -> is_error e.
Proof.
  unfold reply_hits. destruct rp as [|r]; [intros [= <-]; exact I|].
  destruct (resp_json r) as [doc|]; [|intros [= <-]; exact I].
  destruct (Py.subscript doc "data") as [data|e1] eqn:E1;
    [|intros [= <-]; eapply subscript_error, E1].
  destruct (Py.subscript data "hits") as [hits|e2] eqn:E2;
    [|intros [= <-]; eapply subscript_error, E2].
  apply iter_error.
Qed.

Lemma mkdir_in_error (m : Os.tree) (p : string) (e : exn) :
  Os.mkdir_in m p = Raise e -> is_error e.
Proof.
  unfold Os.mkdir_in. destruct (String.eqb p ""); [intros [= <-]; exact I|].
  destruct (m !! p); [intros [= <-]; exact I|].
  destruct (String.eqb (Path.dirname p) ""); [discriminate|].
  destruct (m !! Path.dirname p) as [[|?]|]; try discriminate; intros [= <-]; exact I.
Qed.

Lemma makedirs_in_error (n : nat) (m : Os.tree) (name : string) (e : exn) :
  Os.makedirs_in n m name = Raise e -> is_error e.
Proof.
  revert m name e. induction n as [|n IH]; intros m name e; [intros [= <-]; exact I|].
  cbn [Os.makedirs_in]. destruct (Path.split name) as [head tail].
  destruct (if nonempty_str tail then (head, tail) else Path.split head) as [head0 tail0].
  destruct (_ && _ && _); [|apply mkdir_in_error].
  destruct (Os.makedirs_in n m head0) as [m'|e'] eqn:E.
  - destruct (String.eqb tail0 "."); [discriminate | apply mkdir_in_error].
  - specialize (IH _ _ _ E).
    destruct e'; try (intros [= <-]; exact IH).
    destruct (String.eqb tail0 "."); [discriminate | apply mkdir_in_error].
Qed.

Lemma open_wb_in_error (m : Os.tree) (p : string) (e : exn) :
  Os.open_wb_in m p = Raise e -> is_error e.
Proof.
  unfold Os.open_wb_in. destruct (String.eqb p ""); [intros [= <-]; exact I|].
  destruct (m !! p) as [[|?]|]; try discriminate; try (intros [= <-]; exact I).
  destruct (String.eqb (Path.dirname p) ""); [discriminate|].
  destruct (m !! Path.dirname p) as [[|?]|]; try discriminate; intros [= <-]; exact I.
Qed.

Lemma raises_errors_ret {A} (a : A) : raises_errors (ret a).
Proof. intros w e. discriminate. Qed.

Lemma raises_errors_raise {A} (e : exn) : is_error e -> raises_errors (@raise A e).
Proof. intros He w e' [= <-]. exact He. Qed.

Lemma raises_errors_lift {A} (r : result A) :
  (forall e, r = Raise e -> is_error e) -> raises_errors (lift r).
Proof. intros Hr w e. apply Hr. Qed.

Lemma raises_errors_bind {A B} (m : M A) (k : A -> M B) :
  raises_errors m -> (forall a, raises_errors (k a)) -> raises_errors (bind m k).
Proof.
  intros Hm Hk w e. rewrite bind_run. specialize (Hm w).
  destruct (m w) as [[a|e'] w1]; cbn [fst] in *; [apply Hk | intros [= <-]; now apply Hm].
Qed.

Lemma raises_errors_for_each {A} (l : list A) (body : A -> M unit) :
  (forall x, raises_errors (body x)) -> raises_errors (for_each l body).
Proof.
  intros Hb. induction l as [|x l IH]; cbn [for_each].
  - apply raises_errors_ret.
  - apply raises_errors_bind; [apply Hb | intros _; exact IH].
Qed.

Lemma raises_errors_update (f : Os.tree -> result Os.tree) :
  (forall m e, f m = Raise e -> is_error e) -> raises_errors (Os.update f).
Proof.
  intros Hf w e. unfold Os.update. destruct (f (fs w)) eqn:E; [discriminate|].
  intros [= <-]. eapply Hf, E.
Qed.

Section Errors.

Variable server : Server.

Lemma raises_errors_send (req : request) : raises_errors (send server req).
Proof.
  intros w e. rewrite send_run. cbn [fst].
  destruct (server (net_log w) req); [intros [= <-]; exact I | discriminate].
Qed.

Lemma raises_errors_download_file (file_id : json) (filepath : string) :
  raises_errors (download_file server file_id filepath).
Proof.
  unfold download_file, requests_get, Os.path_exists, Os.makedirs, Os.open_wb, Os.write.
  apply raises_errors_bind; [apply raises_errors_lift, add_error|]. intros url.
  apply raises_errors_bind; [apply raises_errors_send|]. intros r.
  apply raises_errors_bind; [intros w e; discriminate|]. intros present.
  apply raises_errors_bind.
  { destruct (negb present); [|apply raises_errors_ret].
    apply raises_errors_update. intros m e. apply makedirs_in_error. }
  intros _. apply raises_errors_bind.
  { apply raises_errors_bind; [|intros _; apply raises_errors_ret].
    apply raises_errors_update. intros m e. apply open_wb_in_error. }
  intros fh. apply raises_errors_bind.
  { apply raises_errors_for_each. intros chunk.
    destruct (nonempty chunk); [|apply raises_errors_ret].
    apply raises_errors_update. discriminate. }
  intros _. apply raises_errors_bind; [|intros _; apply raises_errors_ret].
  destruct (resp_intact r); [apply raises_errors_ret | now apply raises_errors_raise].
Qed.

Lemma raises_errors_report_maf (download : bool) (proj_id maf : json) :
  raises_errors (report_maf server download proj_id maf).
Proof.
  unfold report_maf.
  apply raises_errors_bind; [apply raises_errors_lift, subscript_error|]. intros file_id.
  apply raises_errors_bind; [apply raises_errors_lift, subscript_error|]. intros file_name.
  apply raises_errors_bind; [apply raises_errors_lift, join_error|]. intros line.
  apply raises_errors_bind; [intros w e; discriminate|]. intros _.
  destruct download; [|apply raises_errors_ret].
  apply raises_errors_bind; [apply raises_errors_lift, subscript_error|]. intros file_id'.
  apply raises_errors_bind; [apply raises_errors_lift, subscript_error|]. intros file_name'.
  apply raises_errors_bind; [apply raises_errors_lift, join_error|]. intros filepath.
  apply raises_errors_bind; [apply raises_errors_download_file|].
  intros _. apply raises_errors_ret.
Qed.

Lemma raises_errors_enumerate_mafs (download : bool) (proj_id : json) :
  raises_errors (enumerate_mafs server download proj_id).
Proof.
  intros w e. rewrite enumerate_mafs_run.
  destruct (reply_hits _) as [mafs|e'] eqn:E.
  - apply raises_errors_for_each. intros maf. apply raises_errors_report_maf.
  - intros [= <-]. eapply reply_hits_error, E.
Qed.

End Errors.

Lemma comprehension_error {A B} (f : A -> result B) (l : list A) (e : exn) :
  (forall d e', f d = Raise e' -> is_error e') ->
  Py.comprehension f l = Raise e -> is_error e.
Proof.
  intros Hf. induction l as [|d l IH]; simpl; [discriminate|].
  destruct (f d) as [x|e'] eqn:E; [|intros [= <-]; eapply Hf, E].
  destruct (Py.comprehension f l); [discriminate|]. intros [= <-]. now apply IH.
Qed.

Lemma comprehension_if_error {A} (c : A -> result bool) (l : list A) (e : exn) :
  (forall d e', c d = Raise e' -> is_error e') ->
  Py.comprehension_if c l = Raise e -> is_error e.
Proof.
  intros Hc. induction l as [|d l IH]; simpl; [discriminate|].
  destruct (c d) as [b|e'] eqn:E; [|intros [= <-]; eapply Hc, E].
  destruct (Py.comprehension_if c l); [discriminate|]. intros [= <-]. now apply IH.
Qed.

Lemma fetch_proj_ids_error (server : Server) (w : World) (e : exn) :
  fst (fetch_proj_ids server w) = Raise e -> is_error e.
Proof.
  rewrite fetch_proj_ids_run. cbn [fst].
  destruct (reply_hits _) as [ds|e'] eqn:E; [|intros [= <-]; eapply reply_hits_error, E].
  destruct (Py.comprehension _ ds) as [ids|e'] eqn:E'.
  - apply comprehension_if_error. intros d e'.
    destruct d; simpl; try discriminate; intros [= <-]; exact I.
  - intros [= <-]. eapply comprehension_error; [|exact E'].
    intros d e''. apply subscript_error.
Qed.

(** X1.  How [main] ends once [parse_args] has returned the value of
    the flag.  It returns normally exactly when no project is retained;
    it leaves through [exit], and then with status 0, exactly when the
    file stage of the first retained project has come to its end; in
    every other case it ends with an error. *)
Theorem main_outcome (server : Server) (download : bool) (w : World) :
  let r := fst (main server download w) in
  (r = Ok tt <-> fst (fetch_proj_ids server w) = Ok []) /\
  (forall c,
      r = Raise (SystemExit c) <->
      c = 0%Z /\
      exists proj_id rest,
        fst (fetch_proj_ids server w) = Ok (proj_id :: rest) /\
        fst (enumerate_mafs server download proj_id (logged w [proj_request])) = Ok tt).
Proof.
  cbv zeta. rewrite main_run.
  pose proof (fetch_proj_ids_error server w) as Hfetch.
  rewrite fetch_proj_ids_run in *. cbn [fst] in *.
  match goal with |- context [match ?x with Ok _ => _ | Raise _ => _ end] =>
    destruct x as [[|proj_id rest]|e] end; cbn [fst].
  - split; [tauto|]. intros c. split; [discriminate|].
    intros (_ & p & rest & H & _). discriminate.
  - pose proof (raises_errors_enumerate_mafs server download proj_id
                  (logged w [proj_request])) as Herr.
    destruct (enumerate_mafs server download proj_id (logged w [proj_request]))
      as [[[]|e] w2] eqn:E; cbn [fst] in *.
    + split; [split; discriminate|]. intros c. split.
      * intros [= <-]. split; [reflexivity|]. exists proj_id, rest.
        rewrite E. split; reflexivity.
      * intros [-> _]. reflexivity.
    + split; [split; discriminate|]. intros c. split.
      * intros [= ->]. destruct (Herr _ eq_refl).
      * intros (_ & p & rest' & [= <- <-] & H). rewrite E in H. discriminate.
  - split; [split; discriminate|]. intros c. split.
    + intros [= ->]. destruct (Hfetch _ eq_refl).
    + intros (_ & p & rest & H & _). discriminate.
Qed.

(** ** One project per run *)

(** X2.  However many projects are retained, a run sends the file
    search of the first of them and no other, and every line it prints is
    a line of that project. *)
Theorem main_serves_first_project_only
    (server : Server) (download : bool) (w : World) (first : json) (others : list json) :
  fst (fetch_proj_ids server w) = Ok (first :: others) ->
  let w' := snd (main server download w) in
  exists (proj_id : string) (recs : list (string * string)) (gets : list request),
    first = JStr proj_id /\
    stdout w' = stdout w ++ map (output_line proj_id) recs /\
    net_log w' = net_log w ++ proj_request :: file_request first :: gets /\
    Forall is_get gets.
Proof.
  intros Hids. cbv zeta.
  pose proof (fetch_proj_ids_kept server w _ Hids) as Hkept.
  inversion Hkept as [|? ? (proj_id & -> & _) _]; subst.
  pose proof (main_effect server download w) as H. cbv zeta in H. rewrite Hids in H.
  exists proj_id.
  destruct (reply_hits _) as [mafs|e].
  - destruct H as (lines & gets & HF & Hout & Hlog & Hgets & _).
    destruct (lines_records _ _ _ HF) as (recs & _ & ->).
    exists recs, gets. repeat split; assumption.
  - rewrite H. exists [], []. cbn [snd logged printed stdout net_log map].
    rewrite app_nil_r. repeat split; constructor.
Qed.

Lemma main_serves_first_project_only_witness :
  let w' := snd (main Sample.archive true Sample.empty_world) in
  exists (proj_id : string) (recs : list (string * string)) (gets : list request),
    JStr "TCGA-ABC" = JStr proj_id /\
    stdout w' = stdout Sample.empty_world ++ map (output_line proj_id) recs /\
    net_log w' = net_log Sample.empty_world
                 ++ proj_request :: file_request (JStr "TCGA-ABC") :: gets /\
    Forall is_get gets.
Proof.
  apply (main_serves_first_project_only Sample.archive true Sample.empty_world
           (JStr "TCGA-ABC") [JStr "TCGA-DEF"]).
  reflexivity.
Defined.

(** ** Lines and downloads *)

Section Downloads.

Variable server : Server.

Lemma download_file_log (file_id filepath : string) (w : World) :
  let w' := snd (download_file server (JStr file_id) filepath w) in
  stdout w' = stdout w /\ net_log w' = net_log w ++ [GET (data_ep +:+ file_id)].
Proof.
  unfold download_file. rewrite bind_lift. cbn [Py.add].
  unfold requests_get. rewrite bind_run, send_run.
  destruct (server (net_log w) (GET (data_ep +:+ file_id))) as [|r];
    [split; reflexivity|].
  match goal with |- context [snd (?m (logged w ?l))] =>
    assert (H : respects same_io m) end.
  { unfold Os.makedirs, Os.open_wb, Os.write. frame. }
  destruct (H (logged w [GET (data_ep +:+ file_id)])) as [H1 H2].
  split; [exact H2 | exact H1].
Qed.

Lemma report_maf_exact (download : bool) (proj_id : string) (maf : json) (w : World) :
  let w' := snd (report_maf server download (JStr proj_id) maf w) in
  match maf_line (JStr proj_id) maf with
  | Raise e => report_maf server download (JStr proj_id) maf w = (Raise e, w)
  | Ok _ =>
      exists rec,
        is_record maf rec /\
        stdout w' = stdout w ++ [output_line proj_id rec] /\
        net_log w' = net_log w ++ (if download then [download_request rec] else [])
  end.
Proof.
  cbv zeta. destruct (maf_line (JStr proj_id) maf) as [l|e] eqn:El.
  - destruct (maf_line_record _ _ _ El) as ([file_id file_name] & [Hid Hname] & ->).
    cbn [fst snd] in Hid, Hname.
    exists (file_id, file_name). split; [split; assumption|].
    unfold report_maf. rewrite bind_lift, Hid, bind_lift, Hname, bind_lift.
    change (Py.join _ [JStr proj_id; JStr file_id; JStr file_name])
      with (Ok (output_line proj_id (file_id, file_name))).
    cbv beta iota. rewrite bind_run.
    change (print _ w) with (Ok tt, printed w [output_line proj_id (file_id, file_name)]).
    cbv beta iota. destruct download.
    + rewrite !bind_lift.
      change (Py.join "/" [JStr "mafs"; JStr proj_id; JStr file_name])
        with (Ok (String.concat "/" ["mafs"; proj_id; file_name])).
      cbv beta iota. rewrite bind_run.
      pose proof (download_file_log file_id (String.concat "/" ["mafs"; proj_id; file_name])
                    (printed w [output_line proj_id (file_id, file_name)])) as [Hout Hlog].
      destruct (download_file server (JStr file_id) _ _) as [[x|e] w1];
        cbn [fst snd] in *; split; assumption.
    + cbn [snd ret printed stdout net_log]. rewrite app_nil_r. split; reflexivity.
  - pose proof (report_maf_effect server download (JStr proj_id) maf w) as H.
    cbv zeta in H. rewrite El in H. destruct H as [H1 H2].
    destruct (report_maf server download (JStr proj_id) maf w). cbn [fst snd] in *.
    now subst.
Qed.

Lemma report_loop_exact (download : bool) (proj_id : string) (mafs : list json) (w : World) :
  let w' := snd (for_each mafs (report_maf server download (JStr proj_id)) w) in
  exists recs,
    stdout w' = stdout w ++ map (output_line proj_id) recs /\
    net_log w' = net_log w ++ (if download then map download_request recs else []).
Proof.
  revert w. induction mafs as [|maf mafs IH]; intros w; cbn [for_each].
  - exists []. destruct download; cbn [snd ret map]; rewrite !app_nil_r; split; reflexivity.
  - rewrite bind_run.
    pose proof (report_maf_exact download proj_id maf w) as H. cbv zeta in H.
    destruct (maf_line (JStr proj_id) maf) as [l|e].
    + destruct H as (rec & _ & Hout & Hlog).
      destruct (report_maf server download (JStr proj_id) maf w) as [[[]|e] w1];
        cbn [fst snd] in *.
      * destruct (IH w1) as (recs & Hout' & Hlog').
        exists (rec :: recs). rewrite Hout', Hlog', Hout, Hlog.
        destruct download; cbn [map]; rewrite <- !app_assoc; split; reflexivity.
      * exists [rec]. rewrite Hout, Hlog. destruct download; split; reflexivity.
    + rewrite H. exists [].
      destruct download; cbn [snd map]; rewrite !app_nil_r; split; reflexivity.
Qed.

End Downloads.

(** X3.  The file stage of a project sends its search and then, with
    [--download], exactly one download request per line it prints, in the
    order of the lines and for the file the line names; without
    [--download] it sends nothing after the search. *)
Theorem downloads_follow_lines
    (server : Server) (download : bool) (proj_id : string) (w : World) :
  let w' := snd (enumerate_mafs server download (JStr proj_id) w) in
  exists recs : list (string * string),
    stdout w' = stdout w ++ map (output_line proj_id) recs /\
    net_log w' = net_log w ++
                 file_request (JStr proj_id)
                 :: (if download then map download_request recs else []).
Proof.
  cbv zeta. rewrite enumerate_mafs_run.
  destruct (reply_hits _) as [mafs|e].
  - destruct (report_loop_exact server download proj_id mafs
                (logged w [file_request (JStr proj_id)])) as (recs & Hout & Hlog).
    exists recs. split; [exact Hout|].
    rewrite Hlog. cbn [net_log logged]. now rewrite <- app_assoc.
  - exists []. cbn [snd logged stdout net_log map]. rewrite app_nil_r.
    destruct download; split; reflexivity.
Qed.

(** ** A record that cannot be listed *)

Lemma for_each_app {A} (body : A -> M unit) (l1 l2 : list A) (w : World) :
  for_each (l1 ++ l2) body w =
    match for_each l1 body w with
    | (Ok _, w1) => for_each l2 body w1
    | (Raise e, w1) => (Raise e, w1)
    end.
Proof.
  revert w. induction l1 as [|x l1 IH]; intros w; [reflexivity|].
  cbn [app for_each]. rewrite !bind_run.
  destruct (body x w) as [[[]|e] w1]; [apply IH | reflexivity].
Qed.

Lemma printed_printed (w : World) (l1 l2 : list string) :
  printed (printed w l1) l2 = printed w (l1 ++ l2).
Proof. unfold printed; simpl. now rewrite app_assoc. Qed.

Lemma report_loop_records (server : Server) (proj_id : string)
      (mafs : list json) (recs : list (string * string)) (w : World) :
  Forall2 is_record mafs recs ->
  for_each mafs (report_maf server false (JStr proj_id)) w
  = (Ok tt, printed w (map (output_line proj_id) recs)).
Proof.
  intros HF. revert w.
  induction HF as [|maf [file_id file_name] mafs recs [Hid Hname] _ IH]; intros w.
  - cbn [for_each map]. unfold ret, printed. destruct w; simpl. now rewrite app_nil_r.
  - cbn [fst snd] in Hid, Hname. cbn [for_each]. rewrite bind_run.
    unfold report_maf. rewrite bind_lift, Hid, bind_lift, Hname, bind_lift.
    change (Py.join _ [JStr proj_id; JStr file_id; JStr file_name])
      with (Ok (output_line proj_id (file_id, file_name))).
    cbv beta iota. rewrite bind_run.
    change (print _ w) with (Ok tt, printed w [output_line proj_id (file_id, file_name)]).
    cbv beta iota. unfold ret at 1. rewrite IH, printed_printed. reflexivity.
Qed.

Lemma lacking_record_raises (proj_id bad : json) :
  lacks "file_id" bad \/ lacks "file_name" bad ->
  maf_line proj_id bad = Raise (record_error bad).
Proof.
  unfold maf_line, record_error, lacks.
  destruct bad as [| | | | |members]; try reflexivity.
  cbn [Py.subscript].
  destruct (Py.assoc "file_id" members); [|reflexivity].
  intros [H|H]; [discriminate | now rewrite H].
Qed.

(** X4.  Without [--download], a record that has no ['file_id'] or no
    ['file_name'] ends the run at that record with [KeyError] on the
    first of the two keys that is missing, or with [TypeError] when the
    record is no [dict]: the lines of the records before it have been
    printed and stay, and nothing is printed for it or for the records
    after it. *)
Theorem bad_record_stops_the_listing
    (server : Server) (proj_id : string) (w : World)
    (good : list json) (bad : json) (rest : list json) (recs : list (string * string)) :
  reply_hits (server (net_log w) (file_request (JStr proj_id))) = Ok (good ++ bad :: rest) ->
  Forall2 is_record good recs ->
  lacks "file_id" bad \/ lacks "file_name" bad ->
  enumerate_mafs server false (JStr proj_id) w
  = (Raise (record_error bad),
     printed (logged w [file_request (JStr proj_id)]) (map (output_line proj_id) recs)).
Proof.
  intros Hhits Hgood Hbad.
  pose proof (lacking_record_raises (JStr proj_id) bad Hbad) as He.
  rewrite enumerate_mafs_run, Hhits, for_each_app.
  rewrite (report_loop_records server proj_id good recs _ Hgood).
  apply for_each_raise.
  pose proof (report_maf_exact server false proj_id bad
                (printed (logged w [file_request (JStr proj_id)])
                   (map (output_line proj_id) recs))) as H.
  cbv zeta in H. now rewrite He in H.
Qed.

Lemma bad_record_stops_the_listing_witness :
  enumerate_mafs Sample.ragged_archive false (JStr "TCGA-ABC") Sample.empty_world
  = (Raise (KeyError "file_name"),
     printed (logged Sample.empty_world [file_request (JStr "TCGA-ABC")])
       (map (output_line "TCGA-ABC") [("f1", "x.maf")])).
Proof.
  apply (bad_record_stops_the_listing Sample.ragged_archive "TCGA-ABC" Sample.empty_world
           [Sample.maf "f1" "x.maf"] (JObj [("file_id", JStr "f2")])
           [Sample.maf "f3" "z.maf"] [("f1", "x.maf")]).
  - reflexivity.
  - repeat constructor.
  - right. reflexivity.
Defined.

Example record_errors :
  record_error (JObj [("file_name", JStr "x.maf")]) = KeyError "file_id" /\
  record_error (JObj []) = KeyError "file_id" /\
  record_error (JObj [("file_id", JStr "f2")]) = KeyError "file_name" /\
  record_error (JStr "f2") = TypeError /\
  record_error (JArr []) = TypeError /\
  record_error JNull = TypeError.
Proof. repeat split. Qed.

(** ** Downloads that cannot be stored *)

Section Storing.

Variable server : Server.

(** A download whose directory is there and whose destination cannot be
    opened ends at the [open]. *)
Lemma download_file_stops_at_open (file_id filepath : string) (w : World)
      (r : response) (e : exn) :
  server (net_log w) (GET (data_ep +:+ file_id)) = Answer r ->
  Os.exists_in (fs w) (Path.dirname filepath) = true ->
  Os.open_wb_in (fs w) filepath = Raise e ->
  download_file server (JStr file_id) filepath w
  = (Raise e, logged w [GET (data_ep +:+ file_id)]).
Proof.
  intros Hr Hdir Hopen.
  unfold download_file. rewrite bind_lift. cbn [Py.add].
  unfold requests_get. rewrite bind_run, send_run, Hr.
  rewrite bind_run. unfold Os.path_exists. cbn [fs logged]. rewrite Hdir. cbn [negb].
  rewrite bind_run. unfold ret at 1.
  rewrite bind_run. unfold Os.open_wb. rewrite bind_run. unfold Os.update.
  cbn [fs logged]. now rewrite Hopen.
Qed.

End Storing.

(** X5.  [download_file] needs a destination with a directory part: for
    a path without one, [os.path.dirname] is empty, [os.makedirs('')]
    raises, and the call ends with [FileNotFoundError] after its request,
    with nothing written. *)
Theorem download_file_needs_a_directory
    (server : Server) (file_id filepath : string) (w : World) (r : response) :
  server (net_log w) (GET (data_ep +:+ file_id)) = Answer r ->
  Path.dirname filepath = "" ->
  download_file server (JStr file_id) filepath w
  = (Raise FileNotFoundError, logged w [GET (data_ep +:+ file_id)]).
Proof.
  intros Hr Hdir.
  unfold download_file. rewrite bind_lift. cbn [Py.add].
  unfold requests_get. rewrite bind_run, send_run, Hr.
  rewrite bind_run. unfold Os.path_exists. rewrite Hdir.
  change (Os.exists_in _ "") with false. cbn [negb].
  rewrite bind_run. unfold Os.makedirs, Os.update.
  change (Os.makedirs_in (S (String.length "")) (fs (logged w [GET (data_ep +:+ file_id)])) "")
    with (@Raise Os.tree FileNotFoundError).
  reflexivity.
Qed.

Lemma download_file_needs_a_directory_witness :
  download_file Sample.archive (JStr "f1") "x.maf" Sample.stale_world
  = (Raise FileNotFoundError, logged Sample.stale_world [GET (data_ep +:+ "f1")]).
Proof.
  apply (download_file_needs_a_directory Sample.archive "f1" "x.maf" Sample.stale_world
           {| resp_json := None; resp_chunks := Sample.body; resp_intact := true |}).
  - reflexivity.
  - reflexivity.
Defined.

(** X6.  For a plain destination with a directory part.  The directory
    is looked for with [os.path.exists]: when it is there as a regular
    file nothing is made, and the [open] of a new destination below it
    raises [NotADirectoryError]; when the destination itself is a
    directory the [open] raises [IsADirectoryError].  Either way the file
    system is as it was. *)
Theorem download_file_cannot_open
    (server : Server) (file_id filepath : string) (w : World) (r : response) :
  Path.plain filepath = true ->
  server (net_log w) (GET (data_ep +:+ file_id)) = Answer r ->
  Path.dirname filepath <> "" ->
  (forall content,
      fs w !! Path.dirname filepath = Some (File content) ->
      fs w !! filepath = None ->
      download_file server (JStr file_id) filepath w
      = (Raise NotADirectoryError, logged w [GET (data_ep +:+ file_id)])) /\
  (fs w !! Path.dirname filepath = Some Dir ->
   fs w !! filepath = Some Dir ->
   download_file server (JStr file_id) filepath w
   = (Raise IsADirectoryError, logged w [GET (data_ep +:+ file_id)])).
Proof.
  intros _ Hr Hne.
  assert (Hpath : String.eqb filepath "" = false).
  { destruct (String.eqb_spec filepath "") as [->|]; [now destruct Hne | reflexivity]. }
  assert (Hdirne : String.eqb (Path.dirname filepath) "" = false).
  { destruct (String.eqb_spec (Path.dirname filepath) ""); [contradiction | reflexivity]. }
  split.
  - intros content Hdir Hfile. apply (download_file_stops_at_open server _ _ _ r); [exact Hr | |].
    + unfold Os.exists_in. now rewrite Hdirne, Hdir.
    + unfold Os.open_wb_in. now rewrite Hpath, Hfile, Hdirne, Hdir.
  - intros Hdir Hfile. apply (download_file_stops_at_open server _ _ _ r); [exact Hr | |].
    + unfold Os.exists_in. now rewrite Hdirne, Hdir.
    + unfold Os.open_wb_in. now rewrite Hpath, Hfile.
Qed.

Lemma download_file_cannot_open_witness :
  download_file Sample.archive (JStr "f1") "mafs/TCGA-ABC/x.maf" Sample.blocked_world
  = (Raise NotADirectoryError, logged Sample.blocked_world [GET (data_ep +:+ "f1")]) /\
  download_file Sample.archive (JStr "f1") "mafs/TCGA-ABC/x.maf" Sample.occupied_world
  = (Raise IsADirectoryError, logged Sample.occupied_world [GET (data_ep +:+ "f1")]).
Proof.
  split.
  - apply (proj1 (download_file_cannot_open Sample.archive "f1" "mafs/TCGA-ABC/x.maf"
                    Sample.blocked_world
                    {| resp_json := None; resp_chunks := Sample.body; resp_intact := true |}
                    eq_refl eq_refl ltac:(discriminate)) []).
    + vm_compute. reflexivity.
    + vm_compute. reflexivity.
  - apply (proj2 (download_file_cannot_open Sample.archive "f1" "mafs/TCGA-ABC/x.maf"
                    Sample.occupied_world
                    {| resp_json := None; resp_chunks := Sample.body; resp_intact := true |}
                    eq_refl eq_refl ltac:(discriminate))).
    + vm_compute. reflexivity.
    + vm_compute. reflexivity.
Defined.

(** X7.  Downloading twice to the same plain destination, in a
    directory that is there, leaves the body of the second download there
    and nothing of the first: the second [open] empties what the first
    call wrote. *)
Theorem second_download_replaces_first
    (server : Server) (id1 id2 filepath : string) (w : World) (r1 r2 : response) :
  Path.plain filepath = true ->
  server (net_log w) (GET (data_ep +:+ id1)) = Answer r1 ->
  resp_intact r1 = true ->
  server (net_log w ++ [GET (data_ep +:+ id1)]) (GET (data_ep +:+ id2)) = Answer r2 ->
  Path.dirname filepath <> "" ->
  fs w !! Path.dirname filepath = Some Dir ->
  fs w !! filepath <> Some Dir ->
  let twice :=
    download_file server (JStr id1) filepath ;; download_file server (JStr id2) filepath in
  fs (snd (twice w)) = <[filepath := File (mjoin (resp_chunks r2))]> (fs w).
Proof.
  intros _ Hr1 Hintact Hr2 Hne Hdir Hfile. cbv zeta.
  assert (Hdiff : filepath <> Path.dirname filepath) by congruence.
  assert (Hex : forall m : Os.tree,
             m !! Path.dirname filepath = Some Dir ->
             (if Os.exists_in m (Path.dirname filepath) then Ok m
              else Os.makedirs_in (S (String.length (Path.dirname filepath))) m
                     (Path.dirname filepath)) = Ok m).
  { intros m Hm. unfold Os.exists_in.
    destruct (String.eqb_spec (Path.dirname filepath) ""); [contradiction|].
    now rewrite Hm. }
  rewrite bind_run.
  rewrite (download_file_run server id1 filepath w r1 (fs w) _ Hr1 (Hex _ Hdir)
             (open_wb_in_ready _ _ Hne Hdir Hfile)), Hintact.
  set (w1 := Os.with_fs (logged w [GET (data_ep +:+ id1)])
               (<[filepath := File (mjoin (resp_chunks r1))]> (fs w))).
  assert (Hdir1 : fs w1 !! Path.dirname filepath = Some Dir).
  { cbn [w1 fs Os.with_fs]. now rewrite lookup_insert_ne. }
  assert (Hfile1 : fs w1 !! filepath <> Some Dir).
  { cbn [w1 fs Os.with_fs]. now rewrite lookup_insert_eq. }
  rewrite (download_file_run server id2 filepath w1 r2 (fs w1) _ Hr2 (Hex _ Hdir1)
             (open_wb_in_ready _ _ Hne Hdir1 Hfile1)).
  cbn [snd fs Os.with_fs w1]. apply insert_insert_eq.
Qed.

Lemma second_download_replaces_first_witness :
  fs (snd ((download_file Sample.changing_archive (JStr "f1") "mafs/TCGA-ABC/x.maf" ;;
            download_file Sample.changing_archive (JStr "f1") "mafs/TCGA-ABC/x.maf")
             Sample.stale_world))
  = <["mafs/TCGA-ABC/x.maf" := File [x44; x45; x46]]> (fs Sample.stale_world).
Proof.
  apply (second_download_replaces_first Sample.changing_archive "f1" "f1"
           "mafs/TCGA-ABC/x.maf" Sample.stale_world
           {| resp_json := None; resp_chunks := Sample.body; resp_intact := true |}
           {| resp_json := None; resp_chunks := [[x44]; [x45; x46]]; resp_intact := true |}).
  - reflexivity.
  - reflexivity.
  - reflexivity.
  - reflexivity.
  - discriminate.
  - reflexivity.
  - vm_compute. discriminate.
Defined.

(** ** A project identifier that is not a string *)

Lemma comprehension_if_not_string (p : string) (vs : list json) :
  Exists (fun v => forall s, v <> JStr s) vs ->
  Py.comprehension_if (fun d => Py.startswith_method d p) vs = Raise AttributeError.
Proof.
  induction vs as [|v vs IH]; intros H; [inversion H|].
  cbn [Py.comprehension_if].
  destruct v as [| | |s| |]; try reflexivity.
  cbn [Py.startswith_method]. rewrite IH; [reflexivity|].
  inversion H as [? ? Hv|? ? Hvs]; subst; [now destruct (Hv s) | exact Hvs].
Qed.

(** X9.  The identifiers are filtered with their method [startswith]:
    one identifier that is not a string, wherever it stands in the reply
    and whatever the other identifiers are, ends the run with
    [AttributeError] after the project search, before any file search. *)
Theorem non_string_project_aborts
    (server : Server) (download : bool) (w : World) (ds vs : list json) :
  reply_hits (server (net_log w) proj_request) = Ok ds ->
  Forall2 (fun d v => Py.subscript d "project_id" = Ok v) ds vs ->
  Exists (fun v => forall s, v <> JStr s) vs ->
  main server download w = (Raise AttributeError, logged w [proj_request]).
Proof.
  intros Hds Hvs Hbad.
  rewrite main_run, fetch_proj_ids_run, Hds.
  rewrite (comprehension_Forall2 _ ds vs Hvs).
  now rewrite (comprehension_if_not_string _ _ Hbad).
Qed.

Lemma non_string_project_aborts_witness :
  main Sample.odd_archive true Sample.empty_world
  = (Raise AttributeError, logged Sample.empty_world [proj_request]).
Proof.
  apply (non_string_project_aborts Sample.odd_archive true Sample.empty_world
           [Sample.project "TCGA-ABC"; JObj [("project_id", JNum 7)]]
           [JStr "TCGA-ABC"; JNum 7]).
  - reflexivity.
  - repeat constructor.
  - right. left. discriminate.
Defined.

(** ** The footprint of a download *)

#[local] Instance same_at_pre (q : string) : PreOrder (same_at q).
Proof.
  split.
  - intros w. reflexivity.
  - intros a b c H1 H2. unfold same_at in *. congruence.
Qed.

Lemma update_same_at (q : string) (f : Os.tree -> result Os.tree) :
  (forall m m', f m = Ok m' -> m' !! q = m !! q) ->
  respects (same_at q) (Os.update f).
Proof.
  intros Hf w. unfold Os.update, same_at.
  destruct (f (fs w)) as [m'|e] eqn:E; [apply (Hf _ _ E) | reflexivity].
Qed.

Lemma mkdir_in_frame (q p : string) (m m' : Os.tree) :
  q <> p -> Os.mkdir_in m p = Ok m' -> m' !! q = m !! q.
Proof.
  intros Hq. unfold Os.mkdir_in. destruct (String.eqb p ""); [discriminate|].
  destruct (m !! p); [discriminate|].
  destruct (String.eqb (Path.dirname p) "").
  - intros [= <-]. now apply lookup_insert_ne.
  - destruct (m !! Path.dirname p) as [[|?]|]; try discriminate.
    intros [= <-]. now apply lookup_insert_ne.
Qed.

(** [os.makedirs] touches the path and the directories above it, and
    nothing else. *)
Lemma makedirs_in_frame (q : string) (n : nat) (m m' : Os.tree) (name : string) :
  (forall k, q <> Nat.iter k Path.dirname name) ->
  Os.makedirs_in n m name = Ok m' -> m' !! q = m !! q.
Proof.
  revert m m' name. induction n as [|n IH]; intros m m' name Hq; [discriminate|].
  assert (Hname : q <> name) by apply (Hq 0).
  assert (Hup : forall j k, q <> Nat.iter k Path.dirname (Nat.iter j Path.dirname name)).
  { intros j k. rewrite <- Nat.iter_add. apply Hq. }
  cbn [Os.makedirs_in]. unfold Path.split.
  assert (Hstep : forall head tail,
             (forall k, q <> Nat.iter k Path.dirname head) ->
             match Os.makedirs_in n m head with
             | Ok m1 => if String.eqb tail "." then Ok m1 else Os.mkdir_in m1 name
             | Raise FileExistsError =>
                 if String.eqb tail "." then Ok m else Os.mkdir_in m name
             | Raise e => Raise e
             end = Ok m' -> m' !! q = m !! q).
  { intros head tail Hhead.
    destruct (Os.makedirs_in n m head) as [m1|e] eqn:E.
    - pose proof (IH _ _ _ Hhead E) as H1.
      destruct (String.eqb tail "."); [intros [= <-]; exact H1|].
      intros H2. rewrite (mkdir_in_frame _ _ _ _ Hname H2). exact H1.
    - destruct e; try discriminate.
      destruct (String.eqb tail "."); [now intros [= <-] | now apply mkdir_in_frame]. }
  destruct (nonempty_str (Path.basename name)).
  - destruct (_ && _ && _); [|now apply mkdir_in_frame].
    apply Hstep. apply (Hup 1).
  - destruct (_ && _ && _); [|now apply mkdir_in_frame].
    apply Hstep. apply (Hup 2).
Qed.

Lemma open_wb_in_frame (q p : string) (m m' : Os.tree) :
  q <> p -> Os.open_wb_in m p = Ok m' -> m' !! q = m !! q.
Proof.
  intros Hq H. rewrite (open_wb_in_ok _ _ _ H). now apply lookup_insert_ne.
Qed.

Lemma write_in_frame (q p : string) (m : Os.tree) (chunk : bytes) :
  q <> p -> Os.write_in m p chunk !! q = m !! q.
Proof.
  intros Hq. unfold Os.write_in. destruct (m !! p) as [[|old]|]; try reflexivity.
  now apply lookup_insert_ne.
Qed.

(** The handle [open] returns is the path it was given. *)
Lemma respects_open_wb (R : relation World) `{!PreOrder R} {B}
      (p : string) (k : string -> M B) :
  respects R (Os.update (fun m => Os.open_wb_in m p)) ->
  respects R (k p) ->
  respects R (bind (Os.open_wb p) k).
Proof.
  intros Hopen Hk w. unfold Os.open_wb. rewrite !bind_run.
  specialize (Hopen w).
  destruct (Os.update _ w) as [[[]|e] w1]; cbn [snd] in *; [|exact Hopen].
  unfold ret. transitivity w1; [exact Hopen | apply Hk].
Qed.

(** X8.  A download to a plain destination changes the file system at
    the destination and at the directories above it, and at no other
    plain path, whatever the archive answers and however the call ends. *)
Theorem download_file_footprint
    (server : Server) (file_id : json) (filepath q : string) (w : World) :
  Path.plain filepath = true ->
  Path.plain q = true ->
  (forall k, q <> Nat.iter k Path.dirname filepath) ->
  fs (snd (download_file server file_id filepath w)) !! q = fs w !! q.
Proof.
  intros _ _ Hq.
  assert (Hfile : q <> filepath) by apply (Hq 0).
  assert (Hdir : forall k, q <> Nat.iter k Path.dirname (Path.dirname filepath)).
  { intros k. rewrite <- Nat.iter_succ_r. apply Hq. }
  change (same_at q w (snd (download_file server file_id filepath w))).
  revert w. change (respects (same_at q) (download_file server file_id filepath)).
  unfold download_file, requests_get, Os.path_exists, Os.makedirs, Os.write.
  apply respects_bind; [typeclasses eauto | apply respects_lift; typeclasses eauto|].
  intros url. apply respects_bind; [typeclasses eauto | |].
  { intros w. rewrite send_run. reflexivity. }
  intros r. apply respects_bind; [typeclasses eauto | intros w; reflexivity|].
  intros present. apply respects_bind; [typeclasses eauto | |].
  { destruct (negb present); [|apply respects_ret; typeclasses eauto].
    apply update_same_at. intros m m'. now apply makedirs_in_frame. }
  intros _. apply respects_open_wb; [typeclasses eauto | |].
  { apply update_same_at. intros m m'. now apply open_wb_in_frame. }
  apply respects_bind; [typeclasses eauto | |].
  { apply respects_for_each; [typeclasses eauto|]. intros chunk.
    destruct (nonempty chunk); [|apply respects_ret; typeclasses eauto].
    apply update_same_at. intros m m' [= <-]. now apply write_in_frame. }
  intros _. apply respects_bind; [typeclasses eauto | |intros _; apply respects_ret; typeclasses eauto].
  destruct (resp_intact r); [apply respects_ret | apply respects_raise]; typeclasses eauto.
Qed.

Lemma iter_dirname_empty (k : nat) : Nat.iter k Path.dirname "" = "".
Proof.
  induction k as [|k IH]; [reflexivity|].
  change (Nat.iter (S k) Path.dirname "") with (Path.dirname (Nat.iter k Path.dirname "")).
  now rewrite IH.
Qed.

Lemma download_file_footprint_witness :
  fs (snd (download_file Sample.archive (JStr "f1") "mafs/TCGA-ABC/x.maf" Sample.empty_world))
    !! "notes.txt"
  = fs Sample.empty_world !! "notes.txt".
Proof.
  apply (download_file_footprint Sample.archive (JStr "f1") "mafs/TCGA-ABC/x.maf"
           "notes.txt" Sample.empty_world); [reflexivity | reflexivity |].
  intros k.
  destruct k as [|k]; [discriminate|]. rewrite Nat.iter_succ_r.
  change (Path.dirname "mafs/TCGA-ABC/x.maf") with "mafs/TCGA-ABC".
  destruct k as [|k]; [discriminate|]. rewrite Nat.iter_succ_r.
  change (Path.dirname "mafs/TCGA-ABC") with "mafs".
  destruct k as [|k]; [discriminate|]. rewrite Nat.iter_succ_r.
  change (Path.dirname "mafs") with "".
  rewrite iter_dirname_empty. discriminate.
Defined.

(** ** A complete listing *)

(** X10.  A run without [--download] whose first retained project has
    records that all carry an identifier and a name prints the line of
    each of these records, in the order of the reply, after its two
    searches, and exits with status 0; the file system is as it was. *)
Theorem listing_run
    (server : Server) (w : World) (proj_id : string) (others mafs : list json)
    (recs : list (string * string)) :
  fst (fetch_proj_ids server w) = Ok (JStr proj_id :: others) ->
  reply_hits (server (net_log w ++ [proj_request]) (file_request (JStr proj_id))) = Ok mafs ->
  Forall2 is_record mafs recs ->
  main server false w
  = (Raise (SystemExit 0),
     printed (logged w [proj_request; file_request (JStr proj_id)])
       (map (output_line proj_id) recs)).
Proof.
  intros Hids Hmafs Hrecs.
  rewrite main_run. rewrite fetch_proj_ids_run in *. cbn [fst] in Hids. rewrite Hids.
  rewrite enumerate_mafs_run. cbn [net_log logged]. rewrite Hmafs.
  rewrite (report_loop_records server proj_id mafs recs _ Hrecs).
  now rewrite logged_logged.
Qed.

Lemma listing_run_witness :
  main Sample.archive false Sample.empty_world
  = (Raise (SystemExit 0),
     printed (logged Sample.empty_world [proj_request; file_request (JStr "TCGA-ABC")])
       (map (output_line "TCGA-ABC") [("f1", "x.maf")])).
Proof.
  apply (listing_run Sample.archive Sample.empty_world "TCGA-ABC" [JStr "TCGA-DEF"]
           [Sample.maf "f1" "x.maf"] [("f1", "x.maf")]).
  - reflexivity.
  - reflexivity.
  - repeat constructor.
Defined.


(** * Plain paths *)

(** ** The components of a path and its directory *)










(** ** Making the directories of a plain path *)





Example plain_paths :
  Path.plain "mafs/TCGA-ABC/x.maf" = true /\
  Path.components "mafs/TCGA-ABC/x.maf" = ["mafs"; "TCGA-ABC"; "x.maf"] /\
  Path.plain "mafs/TCGA-ABC/" = false /\
  Path.plain "mafs/TCGA-ABC//x.maf" = false /\
  Path.plain "mafs/TCGA-ABC/../x.maf" = false /\
  Path.plain "/mafs/x.maf" = false /\
  Path.plain "" = false.
Proof. repeat split. Qed.

(** The same download into an empty directory tree: the directories
    are made and the path is returned. *)
Example download_into_new_directories :
  download_file Sample.archive (JStr "f1") "mafs/TCGA-ABC/x.maf" Sample.empty_world
  = (Ok "mafs/TCGA-ABC/x.maf",
     {| net_log := [GET (data_ep +:+ "f1")];
        stdout := [];
        fs := <["mafs/TCGA-ABC/x.maf" := File [x41; x42; x43]]>
                (<["mafs/TCGA-ABC" := Dir]> (<["mafs" := Dir]> ∅)) |}).
Proof. vm_compute. reflexivity. Qed.
